(** * Hardware quirks of memtest86+ : system/hwquirks.c

    A shallow embedding of [quirks_init] and of the five quirk-specific
    functions it registers, with the statements of the specification about
    them.

    The file follows the layout of the C source: the constants of the
    headers, the globals, the external primitives (port I/O, LPC, PCI
    configuration space, [usleep]), the private quirk-specific functions and
    at last the public function.  Every external primitive appends the call
    to a trace, so that the order and the number of the hardware accesses
    can be stated. *)

From Stdlib Require Import ZArith List Bool Lia String Ascii QArith.
Import ListNotations.
Local Open Scope Z_scope.

(* ------------------------------------------------------------------ *)
(** * Constants of the headers *)

(** The macros used by hwquirks.c and defined in hwquirks.h, pci.h,
    temperature.h and the memory-controller header.  Their values are not
    part of hwquirks.c, so they are parameters of the development. *)
Class Headers := {
  QUIRK_TYPE_NONE     : Z;
  QUIRK_TYPE_MEM_SIZE : Z;
  QUIRK_TYPE_SMBUS    : Z;
  QUIRK_TYPE_SMP      : Z;
  QUIRK_TYPE_TEMP     : Z;
  PCI_VID_REG         : Z;
  PCI_DID_REG         : Z;
  PCI_SUB_VID_REG     : Z;
  PCI_SUB_DID_REG     : Z;
  PCI_VID_ALI         : Z;
  PCI_VID_INTEL       : Z;
  PCI_VID_ASUS        : Z;
  PCI_VID_SUPERMICRO  : Z;
  AMD_TEMP_REG_K8     : Z;
  IMC_ADL_N           : Z
}.

(** What the hardware answers to a read: configuration space by
    (bus, device, function, register) for each access width, and the LPC
    data register by index.  A single run of any function below reads a
    given register at most once, so the answer is taken as a function of
    the address. *)
Class Bus := {
  cfg8  : Z -> Z -> Z -> Z -> Z;
  cfg16 : Z -> Z -> Z -> Z -> Z;
  cfg32 : Z -> Z -> Z -> Z -> Z;
  lpc   : Z -> Z
}.

(* ------------------------------------------------------------------ *)
(** * Data *)

(** The enumeration [quirk_id_t]: the identifiers hwquirks.c assigns,
    which are distinct values as the enumerators of one C enumeration. *)
Inductive quirk_id_t :=
| QUIRK_NONE
| QUIRK_ALI_ALADDIN_V
| QUIRK_TUSL2
| QUIRK_X10SDV_NOSMP
| QUIRK_K8_BSTEP_NOTEMP
| QUIRK_K8_REVFG_TEMP
| QUIRK_AMD_ERRATA_319
| QUIRK_ADL_SMB_UNLOCK.

(** The values of the function pointer [quirk.process]: [None] is NULL,
    [Some f] the address of the static function [f]. *)
Inductive action :=
| get_m1541_l2_cache_size_ptr
| asus_tusl2_configure_mux_ptr
| disable_temp_reporting_ptr
| amd_k8_revfg_temp_ptr
| adl_unlock_smbus_ptr.

(** [quirk_t] *)
Record quirk_t := mk_quirk {
  id       : quirk_id_t;
  type     : Z;
  root_vid : Z;
  root_did : Z;
  process  : option action
}.

(** The fields of [cpuid_info] that hwquirks.c reads. *)
Record cpuid_vendor_t := mk_vendor { str : string }.

Record cpuid_version_t := mk_version {
  stepping        : Z;
  model           : Z;
  family          : Z;
  extendedModel   : Z;
  extendedFamily  : Z;
  extendedBrandID : Z
}.

Record cpuid_info_t := mk_cpuid {
  vendor_id : cpuid_vendor_t;
  version   : cpuid_version_t
}.

(** [str[0]]; the array of an empty string holds the terminating NUL. *)
Definition str0 (v : cpuid_vendor_t) : ascii :=
  match str v with
  | String c _ => c
  | EmptyString => Ascii.zero
  end.

(** One call of an external primitive, with its arguments in the order of
    the C call and, for a read, the value returned. *)
Inductive event :=
| Outb (value port : Z)
| Usleep (usec : Z)
| LpcOutb (cmd data : Z)
| LpcInb (reg value : Z)
| PciRead8 (bus dev fn reg value : Z)
| PciRead16 (bus dev fn reg value : Z)
| PciRead32 (bus dev fn reg value : Z)
| PciWrite8 (bus dev fn reg value : Z)
| PciWrite16 (bus dev fn reg value : Z).

(** The globals hwquirks.c reads or writes, and the trace of the calls of
    external primitives, oldest first. *)
Record state := mk_state {
  trace              : list event;
  cpuid_info         : cpuid_info_t;
  imc_type           : Z;
  l2_cache           : Z;
  enable_temperature : bool;
  cpu_temp_offset    : Q;
  quirk              : quirk_t
}.

(* ------------------------------------------------------------------ *)
(** * A state monad for the C statements *)

Definition M (A : Type) : Type := state -> A * state.

Definition ret {A} (a : A) : M A := fun s => (a, s).

Definition bind {A B} (m : M A) (k : A -> M B) : M B :=
  fun s => let (a, s') := m s in k a s'.

Declare Scope hw_scope.
Delimit Scope hw_scope with hw.
Notation "x <- m ;; k" := (bind m (fun x => k))
  (at level 61, m at next level, right associativity) : hw_scope.
Notation "m ;; k" := (bind m (fun _ => k))
  (at level 61, right associativity) : hw_scope.
Local Open Scope hw_scope.

(** [if (b) { m }] *)
Definition when (b : bool) (m : M unit) : M unit :=
  if b then m else ret tt.

Definition get {A} (f : state -> A) : M A := fun s => (f s, s).

Definition exec {A} (m : M A) (s : state) : state := snd (m s).

Definition emit (e : event) : M unit := fun s =>
  (tt, mk_state (trace s ++ [e]) (cpuid_info s) (imc_type s) (l2_cache s)
         (enable_temperature s) (cpu_temp_offset s) (quirk s)).

Definition set_l2_cache (v : Z) : M unit := fun s =>
  (tt, mk_state (trace s) (cpuid_info s) (imc_type s) v
         (enable_temperature s) (cpu_temp_offset s) (quirk s)).

Definition set_enable_temperature (b : bool) : M unit := fun s =>
  (tt, mk_state (trace s) (cpuid_info s) (imc_type s) (l2_cache s)
         b (cpu_temp_offset s) (quirk s)).

Definition set_cpu_temp_offset (q : Q) : M unit := fun s =>
  (tt, mk_state (trace s) (cpuid_info s) (imc_type s) (l2_cache s)
         (enable_temperature s) q (quirk s)).

Definition modify_quirk (f : quirk_t -> quirk_t) : M unit := fun s =>
  (tt, mk_state (trace s) (cpuid_info s) (imc_type s) (l2_cache s)
         (enable_temperature s) (cpu_temp_offset s) (f (quirk s))).

(** Assignments to the fields of the global [quirk]. *)
Definition set_id (v : quirk_id_t) : M unit :=
  modify_quirk (fun q => mk_quirk v (type q) (root_vid q) (root_did q) (process q)).

Definition set_type (v : Z) : M unit :=
  modify_quirk (fun q => mk_quirk (id q) v (root_vid q) (root_did q) (process q)).

Definition or_type (v : Z) : M unit :=
  modify_quirk (fun q =>
    mk_quirk (id q) (Z.lor (type q) v) (root_vid q) (root_did q) (process q)).

Definition set_root_vid (v : Z) : M unit :=
  modify_quirk (fun q => mk_quirk (id q) (type q) v (root_did q) (process q)).

Definition set_root_did (v : Z) : M unit :=
  modify_quirk (fun q => mk_quirk (id q) (type q) (root_vid q) v (process q)).

Definition set_process (v : option action) : M unit :=
  modify_quirk (fun q => mk_quirk (id q) (type q) (root_vid q) (root_did q) v).

(* ------------------------------------------------------------------ *)
(** * The program *)

Section Program.

Context {hdr : Headers} {hw : Bus}.

(** ** External primitives (io.h, pci.h, unistd.h)

    The primitives are not part of hwquirks.c; each is taken as the call
    it is, logged in the trace.  A read returns the answer of the hardware truncated to the width of its
    C return type; a write logs the value truncated to the width of its C
    parameter. *)

Definition outb (value port : Z) : M unit := emit (Outb value port).

Definition usleep (usec : Z) : M unit := emit (Usleep usec).

Definition lpc_outb (cmd data : Z) : M unit := emit (LpcOutb cmd data).

Definition lpc_inb (reg : Z) : M Z :=
  let v := lpc reg mod 2 ^ 8 in
  emit (LpcInb reg v) ;; ret v.

Definition pci_config_read8 (bus dev fn reg : Z) : M Z :=
  let v := cfg8 bus dev fn reg mod 2 ^ 8 in
  emit (PciRead8 bus dev fn reg v) ;; ret v.

Definition pci_config_read16 (bus dev fn reg : Z) : M Z :=
  let v := cfg16 bus dev fn reg mod 2 ^ 16 in
  emit (PciRead16 bus dev fn reg v) ;; ret v.

Definition pci_config_read32 (bus dev fn reg : Z) : M Z :=
  let v := cfg32 bus dev fn reg mod 2 ^ 32 in
  emit (PciRead32 bus dev fn reg v) ;; ret v.

Definition pci_config_write8 (bus dev fn reg value : Z) : M unit :=
  emit (PciWrite8 bus dev fn reg (value mod 2 ^ 8)).

Definition pci_config_write16 (bus dev fn reg value : Z) : M unit :=
  emit (PciWrite16 bus dev fn reg (value mod 2 ^ 16)).

(** ** Private quirk-specific functions *)

Definition asus_tusl2_configure_mux : M unit :=
  (* Enter ASB100 Config Mode *)
  outb 0x87 0x2E ;;
  outb 0x87 0x2E ;;
  usleep 200 ;;
  (* Write LPC Command to access Config Mode Reg *)
  lpc_outb 0x7 0x8 ;;
  (* Read Config Mode Register *)
  muxreg <- lpc_inb 0xF1 ;;
  (* Change Smbus Mux Channel & Write Config Mode Register *)
  let muxreg := Z.land muxreg 0xE7 in
  let muxreg := Z.lor muxreg 0x10 in
  lpc_outb 0xF1 muxreg ;;
  usleep 200 ;;
  (* Leave Config Mode *)
  outb 0xAA 0x2E.

Definition get_m1541_l2_cache_size : M unit :=
  l2 <- get l2_cache ;;
  if negb (l2 =? 0) then ret tt else
  (* Check if L2 cache is enabled with L2CC-2 Register[0] *)
  l2cc2 <- pci_config_read8 0 0 0 0x42 ;;
  if Z.land l2cc2 1 =? 0 then ret tt else
  (* Get L2 Cache Size with L2CC-1 Register[3:2] *)
  l2cc1 <- pci_config_read8 0 0 0 0x41 ;;
  let reg := Z.land (Z.shiftr l2cc1 2) 3 in
  when (reg =? 0) (set_l2_cache 256) ;;
  when (reg =? 1) (set_l2_cache 512) ;;
  when (reg =? 2) (set_l2_cache 1024).

Definition disable_temp_reporting : M unit :=
  set_enable_temperature false.

(** [brandID] of [amd_k8_revfg_temp], and its two tests of a mobile part. *)
Definition brandID (v : cpuid_version_t) : Z :=
  Z.land (Z.shiftr (extendedBrandID v) 9) 0x1f.

Definition mobile_single_core (v : cpuid_version_t) : bool :=
  (model v =? 0xF)
  && ((brandID v =? 0x7) || (brandID v =? 0x9) || (brandID v =? 0xC)).

Definition mobile_dual_core (v : cpuid_version_t) : bool :=
  (model v =? 0xB) && (brandID v >? 0xB).

Definition amd_k8_revfg_temp : M unit :=
  rtcr <- pci_config_read32 0 24 3 AMD_TEMP_REG_K8 ;;
  (* For Rev F & G, switch sensor if no temperature is reported *)
  when (Z.land (Z.shiftr rtcr 16) 0xFF =? 0)
       (pci_config_write8 0 24 3 AMD_TEMP_REG_K8 (Z.lor rtcr 0x04)) ;;
  (* K8 Rev G Desktop requires an additional offset. *)
  v <- get (fun s => version (cpuid_info s)) ;;
  if (extendedModel v <? 6) && (extendedModel v >? 7) then ret tt else
  if (extendedModel v =? 6) && (extendedModel v <? 9) then ret tt else
  if mobile_single_core v then ret tt else
  if mobile_dual_core v then ret tt else
  set_cpu_temp_offset (21 # 1).

Definition adl_unlock_smbus : M unit :=
  x <- pci_config_read16 0 31 4 0x04 ;;
  when (Z.land x 1 =? 0) (pci_config_write16 0 31 4 0x04 (Z.lor x 1)).

(** A call through the function pointer. *)
Definition call (a : action) : M unit :=
  match a with
  | get_m1541_l2_cache_size_ptr => get_m1541_l2_cache_size
  | asus_tusl2_configure_mux_ptr => asus_tusl2_configure_mux
  | disable_temp_reporting_ptr => disable_temp_reporting
  | amd_k8_revfg_temp_ptr => amd_k8_revfg_temp
  | adl_unlock_smbus_ptr => adl_unlock_smbus
  end.

(** ** Public function *)

(** [quirks_init] starts by resetting the global record and reading the
    identifiers of the root bridge. *)
Definition quirk_reset : M unit :=
  set_id QUIRK_NONE ;;
  set_type QUIRK_TYPE_NONE ;;
  vid <- pci_config_read16 0 0 0 PCI_VID_REG ;;
  set_root_vid vid ;;
  did <- pci_config_read16 0 0 0 PCI_DID_REG ;;
  set_root_did did ;;
  set_process None.

(** ALi Aladdin V Quirk *)
Definition quirk_ali_aladdin_v : M unit :=
  q <- get quirk ;;
  when ((root_vid q =? PCI_VID_ALI) && (root_did q =? 0x1541))
    (set_id QUIRK_ALI_ALADDIN_V ;;
     or_type QUIRK_TYPE_MEM_SIZE ;;
     set_process (Some get_m1541_l2_cache_size_ptr)).

(** ASUS TUSL2-C Quirk *)
Definition quirk_asus_tusl2 : M unit :=
  q <- get quirk ;;
  when ((root_vid q =? PCI_VID_INTEL) && (root_did q =? 0x1130))
    (sub_vid <- pci_config_read16 0 0 0 PCI_SUB_VID_REG ;;
     when (sub_vid =? PCI_VID_ASUS)
       (sub_did <- pci_config_read16 0 0 0 PCI_SUB_DID_REG ;;
        when (sub_did =? 0x8027)
          (set_id QUIRK_TUSL2 ;;
           or_type QUIRK_TYPE_SMBUS ;;
           set_process (Some asus_tusl2_configure_mux_ptr)))).

(** SuperMicro X10SDV Quirk (GitHub Issue #233) *)
Definition quirk_x10sdv : M unit :=
  q <- get quirk ;;
  when ((root_vid q =? PCI_VID_INTEL) && (root_did q =? 0x6F00))
    (sub_vid <- pci_config_read16 0 0 0 PCI_SUB_VID_REG ;;
     when (sub_vid =? PCI_VID_SUPERMICRO)
       (set_id QUIRK_X10SDV_NOSMP ;;
        or_type QUIRK_TYPE_SMP ;;
        set_process None)).

(** The test shared by the three AMD rules:
    [vendor_id.str[0] == 'A' && family == 0xF && extendedFamily == ef]. *)
Definition amd_family_F (ci : cpuid_info_t) (ef : Z) : bool :=
  Ascii.eqb (str0 (vendor_id ci)) "A"%char
  && (family (version ci) =? 0xF)
  && (extendedFamily (version ci) =? ef).

(** Early AMD K8 doesn't support temperature reading *)
Definition quirk_k8_bstep : M unit :=
  ci <- get cpuid_info ;;
  let v := version ci in
  when (amd_family_F ci 0 && (extendedModel v =? 0))
    (when (((model v =? 4) && (stepping v =? 0))
           || ((model v =? 5) && (stepping v <=? 1)))
       (set_id QUIRK_K8_BSTEP_NOTEMP ;;
        or_type QUIRK_TYPE_TEMP ;;
        set_process (Some disable_temp_reporting_ptr))).

(** Late AMD K8 (rev F/G) temp sensor workaround *)
Definition quirk_k8_revfg : M unit :=
  ci <- get cpuid_info ;;
  let v := version ci in
  when (amd_family_F ci 0 && (extendedModel v >=? 4))
    (set_id QUIRK_K8_REVFG_TEMP ;;
     or_type QUIRK_TYPE_TEMP ;;
     set_process (Some amd_k8_revfg_temp_ptr)).

(** AMD K10 CPUs Temp workaround (Errata #319) *)
Definition quirk_amd_errata_319 : M unit :=
  ci <- get cpuid_info ;;
  let v := version ci in
  when (amd_family_F ci 1 && (extendedModel v =? 0))
    (let pkg_type := Z.land (Z.shiftr (extendedBrandID v) 28) 0x0F in
     dct0_high <- pci_config_read32 0 24 2 0x94 ;;
     when ((pkg_type =? 0)
           || ((pkg_type =? 1) && (Z.land (Z.shiftr dct0_high 8) 1 =? 0)))
       (when ((model v <? 4)
              || ((model v =? 4) && (stepping v <=? 2))
              || (model v =? 8))
          (set_id QUIRK_AMD_ERRATA_319 ;;
           or_type QUIRK_TYPE_TEMP ;;
           set_process (Some disable_temp_reporting_ptr)))).

(** SMBus unlock for ADL-N (and probably others); the register is read only
    when the left operand of [&&] holds. *)
Definition quirk_adl_n : M unit :=
  imc <- get imc_type ;;
  c <- (if imc =? IMC_ADL_N
        then (r <- pci_config_read16 0 31 4 0x2 ;; ret (r =? 0x54A3))
        else ret false) ;;
  when c
    (set_id QUIRK_ADL_SMB_UNLOCK ;;
     or_type QUIRK_TYPE_SMBUS ;;
     set_process (Some adl_unlock_smbus_ptr)).

Definition quirks_init : M unit :=
  quirk_reset ;;
  quirk_ali_aladdin_v ;;
  quirk_asus_tusl2 ;;
  quirk_x10sdv ;;
  quirk_k8_bstep ;;
  quirk_k8_revfg ;;
  quirk_amd_errata_319 ;;
  quirk_adl_n.

(* ------------------------------------------------------------------ *)
(** * The rule table read off [quirks_init] *)

Inductive rule := R1 | R2 | R3 | R4 | R5 | R6 | R7.

Definition rule_table : list rule := [R1; R2; R3; R4; R5; R6; R7].

Definition rule_id (r : rule) : quirk_id_t :=
  match r with
  | R1 => QUIRK_ALI_ALADDIN_V
  | R2 => QUIRK_TUSL2
  | R3 => QUIRK_X10SDV_NOSMP
  | R4 => QUIRK_K8_BSTEP_NOTEMP
  | R5 => QUIRK_K8_REVFG_TEMP
  | R6 => QUIRK_AMD_ERRATA_319
  | R7 => QUIRK_ADL_SMB_UNLOCK
  end.

Definition rule_type (r : rule) : Z :=
  match r with
  | R1 => QUIRK_TYPE_MEM_SIZE
  | R2 => QUIRK_TYPE_SMBUS
  | R3 => QUIRK_TYPE_SMP
  | R4 => QUIRK_TYPE_TEMP
  | R5 => QUIRK_TYPE_TEMP
  | R6 => QUIRK_TYPE_TEMP
  | R7 => QUIRK_TYPE_SMBUS
  end.

Definition rule_process (r : rule) : option action :=
  match r with
  | R1 => Some get_m1541_l2_cache_size_ptr
  | R2 => Some asus_tusl2_configure_mux_ptr
  | R3 => None
  | R4 => Some disable_temp_reporting_ptr
  | R5 => Some amd_k8_revfg_temp_ptr
  | R6 => Some disable_temp_reporting_ptr
  | R7 => Some adl_unlock_smbus_ptr
  end.

(** The value [pci_config_read16] and [pci_config_read32] return. *)
Definition read16 (bus dev fn reg : Z) : Z := cfg16 bus dev fn reg mod 2 ^ 16.
Definition read32 (bus dev fn reg : Z) : Z := cfg32 bus dev fn reg mod 2 ^ 32.

(** The trigger condition of a rule, on the fingerprint of the machine:
    the registers of the hardware, [cpuid_info] and [imc_type]. *)
Definition matches (s : state) (r : rule) : bool :=
  let ci := cpuid_info s in
  let v := version ci in
  match r with
  | R1 => (read16 0 0 0 PCI_VID_REG =? PCI_VID_ALI)
          && (read16 0 0 0 PCI_DID_REG =? 0x1541)
  | R2 => (read16 0 0 0 PCI_VID_REG =? PCI_VID_INTEL)
          && (read16 0 0 0 PCI_DID_REG =? 0x1130)
          && (read16 0 0 0 PCI_SUB_VID_REG =? PCI_VID_ASUS)
          && (read16 0 0 0 PCI_SUB_DID_REG =? 0x8027)
  | R3 => (read16 0 0 0 PCI_VID_REG =? PCI_VID_INTEL)
          && (read16 0 0 0 PCI_DID_REG =? 0x6F00)
          && (read16 0 0 0 PCI_SUB_VID_REG =? PCI_VID_SUPERMICRO)
  | R4 => amd_family_F ci 0 && (extendedModel v =? 0)
          && (((model v =? 4) && (stepping v =? 0))
              || ((model v =? 5) && (stepping v <=? 1)))
  | R5 => amd_family_F ci 0 && (extendedModel v >=? 4)
  | R6 => amd_family_F ci 1 && (extendedModel v =? 0)
          && ((Z.land (Z.shiftr (extendedBrandID v) 28) 0x0F =? 0)
              || ((Z.land (Z.shiftr (extendedBrandID v) 28) 0x0F =? 1)
                  && (Z.land (Z.shiftr (read32 0 24 2 0x94) 8) 1 =? 0)))
          && ((model v <? 4)
              || ((model v =? 4) && (stepping v <=? 2))
              || (model v =? 8))
  | R7 => (imc_type s =? IMC_ADL_N) && (read16 0 31 4 0x2 =? 0x54A3)
  end.

(** What a matching rule does to the record: it ORs its domains into
    [type] and assigns [id] and [process]. *)
Definition apply_rule (q : quirk_t) (r : rule) : quirk_t :=
  mk_quirk (rule_id r) (Z.lor (type q) (rule_type r))
           (root_vid q) (root_did q) (rule_process r).

(** The record after the reset at the head of [quirks_init]. *)
Definition reset_record : quirk_t :=
  mk_quirk QUIRK_NONE QUIRK_TYPE_NONE
           (read16 0 0 0 PCI_VID_REG) (read16 0 0 0 PCI_DID_REG) None.

(** The rules that match, in table order. *)
Definition matching (s : state) : list rule := filter (matches s) rule_table.

(** The union of the domains of a list of rules. *)
Definition domains (rs : list rule) : Z :=
  fold_left Z.lor (map rule_type rs) 0.

(** The record after the rules of [rs] matched, in this order. *)
Definition apply_rules (rs : list rule) (q : quirk_t) : quirk_t :=
  fold_left apply_rule rs q.

(** The action that goes with an identifier in the rule table. *)
Definition action_of_id (i : quirk_id_t) : option action :=
  match i with
  | QUIRK_NONE => None
  | QUIRK_ALI_ALADDIN_V => Some get_m1541_l2_cache_size_ptr
  | QUIRK_TUSL2 => Some asus_tusl2_configure_mux_ptr
  | QUIRK_X10SDV_NOSMP => None
  | QUIRK_K8_BSTEP_NOTEMP => Some disable_temp_reporting_ptr
  | QUIRK_K8_REVFG_TEMP => Some amd_k8_revfg_temp_ptr
  | QUIRK_AMD_ERRATA_319 => Some disable_temp_reporting_ptr
  | QUIRK_ADL_SMB_UNLOCK => Some adl_unlock_smbus_ptr
  end.

(** The reads [quirks_init] uses to take the fingerprint. *)
Definition fingerprint_read (e : event) : Prop :=
  match e with
  | PciRead16 0 0 0 reg _ =>
      reg = PCI_VID_REG \/ reg = PCI_DID_REG
      \/ reg = PCI_SUB_VID_REG \/ reg = PCI_SUB_DID_REG
  | PciRead32 0 24 2 0x94 _ => True
  | PciRead16 0 31 4 0x2 _ => True
  | _ => False
  end.

(** [s'] differs from [s] by fingerprint reads and by the record only:
    no global of another subsystem has changed and the hardware has seen
    no write, no port access and no delay. *)
Definition only_fingerprint_reads (s s' : state) : Prop :=
  cpuid_info s' = cpuid_info s
  /\ imc_type s' = imc_type s
  /\ l2_cache s' = l2_cache s
  /\ enable_temperature s' = enable_temperature s
  /\ cpu_temp_offset s' = cpu_temp_offset s
  /\ exists evs, trace s' = trace s ++ evs /\ Forall fingerprint_read evs.

(** The record after one block of [quirks_init], by the rule table. *)
Definition step_record (s : state) (q : quirk_t) (r : rule) : quirk_t :=
  if matches s r then apply_rule q r else q.

(** The value [asus_tusl2_configure_mux] writes back for a register value
    [v]. *)
Definition mux_channel (v : Z) : Z := Z.lor (Z.land v 0xE7) 0x10.

(** The size [get_m1541_l2_cache_size] stores for a code of L2CC-1[3:2];
    [old] is the value of [l2_cache] before the call. *)
Definition m1541_size (code old : Z) : Z :=
  match code with
  | 0 => 256
  | 1 => 512
  | 2 => 1024
  | _ => old
  end.

(** The test of a mobile part in [amd_k8_revfg_temp]. *)
Definition mobile (v : cpuid_version_t) : bool :=
  mobile_single_core v || mobile_dual_core v.

(** The first trace of a call of [a]: its first hardware access, for the
    functions that have one. *)
Definition first_access (a : action) (e : event) : bool :=
  match a, e with
  | get_m1541_l2_cache_size_ptr, PciRead8 0 0 0 0x42 _ => true
  | asus_tusl2_configure_mux_ptr, Outb 0x87 0x2E => true
  | amd_k8_revfg_temp_ptr, PciRead32 0 24 3 reg _ => reg =? AMD_TEMP_REG_K8
  | adl_unlock_smbus_ptr, PciRead16 0 31 4 0x04 _ => true
  | _, _ => false
  end.

(** Whether a call of [a] shows between [s0] and [s1]: by its first
    hardware access among the events added, or, for
    [disable_temp_reporting], by the flag. *)
Definition fix_visible (a : action) (s0 s1 : state) : bool :=
  match a with
  | disable_temp_reporting_ptr => negb (enable_temperature s1)
  | _ => existsb (first_access a) (skipn (List.length (trace s0)) (trace s1))
  end.

(** The fact carried through the blocks of [quirks_init]: the identifiers
    of the root bridge are in the record. *)
Definition root_ids_read (q : quirk_t) : Prop :=
  root_vid q = read16 0 0 0 PCI_VID_REG
  /\ root_did q = read16 0 0 0 PCI_DID_REG.

(** The state [s] after the reset and the blocks of the rules [rs], started
    in [s0]. *)
Definition after_rules (s0 s : state) (rs : list rule) : Prop :=
  quirk s = fold_left (step_record s0) rs reset_record
  /\ only_fingerprint_reads s0 s.

(** The configuration-space reads of the block of rule [r] in
    [quirks_init]: a block reads a register only behind the tests that
    come before the read in the source. *)
Definition rule_reads (s : state) (r : rule) : list event :=
  let vid := read16 0 0 0 PCI_VID_REG in
  let did := read16 0 0 0 PCI_DID_REG in
  let sub_vid := read16 0 0 0 PCI_SUB_VID_REG in
  let sub_did := read16 0 0 0 PCI_SUB_DID_REG in
  match r with
  | R2 =>
      if (vid =? PCI_VID_INTEL) && (did =? 0x1130) then
        PciRead16 0 0 0 PCI_SUB_VID_REG sub_vid ::
        (if sub_vid =? PCI_VID_ASUS
         then [PciRead16 0 0 0 PCI_SUB_DID_REG sub_did] else [])
      else []
  | R3 =>
      if (vid =? PCI_VID_INTEL) && (did =? 0x6F00)
      then [PciRead16 0 0 0 PCI_SUB_VID_REG sub_vid] else []
  | R6 =>
      if amd_family_F (cpuid_info s) 1
         && (extendedModel (version (cpuid_info s)) =? 0)
      then [PciRead32 0 24 2 0x94 (read32 0 24 2 0x94)] else []
  | R7 =>
      if imc_type s =? IMC_ADL_N
      then [PciRead16 0 31 4 0x2 (read16 0 31 4 0x2)] else []
  | _ => []
  end.

(** The reads of the reset at the head of [quirks_init]. *)
Definition reset_reads : list event :=
  [PciRead16 0 0 0 PCI_VID_REG (read16 0 0 0 PCI_VID_REG);
   PciRead16 0 0 0 PCI_DID_REG (read16 0 0 0 PCI_DID_REG)].

(** All the hardware accesses of one run of [quirks_init], in order. *)
Definition fingerprint_trace (s : state) : list event :=
  reset_reads ++ List.concat (map (rule_reads s) rule_table).

(** The trace of [s] after the reset and the blocks of the rules [rs],
    started in [s0]. *)
Definition reads_after (s0 s : state) (rs : list rule) : Prop :=
  after_rules s0 s rs
  /\ trace s = trace s0 ++ reset_reads ++ List.concat (map (rule_reads s0) rs).

(** What a rule is keyed on: the identifiers of the root bridge (0), the
    CPU identification (1) or the memory controller (2). *)
Definition rule_group (r : rule) : Z :=
  match r with
  | R1 | R2 | R3 => 0
  | R4 | R5 | R6 => 1
  | R7 => 2
  end.

(** The value [amd_k8_revfg_temp] passes to [pci_config_write8], as the
    8-bit parameter receives it. *)
Definition sensor_select (rtcr : Z) : Z := Z.lor rtcr 0x04 mod 2 ^ 8.

End Program.

(* ------------------------------------------------------------------ *)
(** * The reading of the specification that the code does not follow *)

(** The specification has rules whose fix [quirks_init] invokes inline.
    Such a rule would show the fix after [quirks_init] on every machine
    that matches it and on which the fix is not a no-op. *)
Definition fix_runs_inline (r : rule) : Prop :=
  exists a, rule_process r = Some a
  /\ forall (hdr : Headers) (hw : Bus) (s : state),
       l2_cache s = 0 -> enable_temperature s = true ->
       matches s r = true ->
       fix_visible a s (exec quirks_init s) = true.

(** The specification's condition for the +21.0 offset of
    [amd_k8_revfg_temp]: extended model in [6,9) and not a mobile part. *)
Definition offset_expected (v : cpuid_version_t) : bool :=
  (6 <=? extendedModel v) && (extendedModel v <? 9) && negb (mobile v).

(* ------------------------------------------------------------------ *)
(** * Sample machines *)

(** Values of the header constants, for the examples. *)
Definition sample_headers : Headers := {|
  QUIRK_TYPE_NONE     := 0;
  QUIRK_TYPE_MEM_SIZE := 0x40;
  QUIRK_TYPE_SMBUS    := 0x10;
  QUIRK_TYPE_SMP      := 0x04;
  QUIRK_TYPE_TEMP     := 0x80;
  PCI_VID_REG         := 0x00;
  PCI_DID_REG         := 0x02;
  PCI_SUB_VID_REG     := 0x2C;
  PCI_SUB_DID_REG     := 0x2E;
  PCI_VID_ALI         := 0x10B9;
  PCI_VID_INTEL       := 0x8086;
  PCI_VID_ASUS        := 0x1043;
  PCI_VID_SUPERMICRO  := 0x15D9;
  AMD_TEMP_REG_K8     := 0xE4;
  IMC_ADL_N           := 0x3061
|}.


(** A machine whose root bridge has the identifiers [vid], [did], [svid],
    [sdid], whose ISA bridge function 4 has the device identifier [isa],
    and whose other registers all read [other]. *)
Definition sample_bus (vid did svid sdid isa other : Z) : Bus := {|
  cfg8  := fun _ _ _ _ => other;
  cfg16 := fun bus dev fn reg =>
    if (bus =? 0) && (dev =? 0) && (fn =? 0) then
      if reg =? 0x00 then vid
      else if reg =? 0x02 then did
      else if reg =? 0x2C then svid
      else if reg =? 0x2E then sdid
      else other
    else if (bus =? 0) && (dev =? 31) && (fn =? 4) && (reg =? 0x2) then isa
    else other;
  cfg32 := fun _ _ _ _ => other;
  lpc   := fun _ => other
|}.

Definition sample_cpu (vendor : string) (fam efam mdl emdl step : Z)
  : cpuid_info_t :=
  mk_cpuid (mk_vendor vendor) (mk_version step mdl fam emdl efam 0).

(** A machine before [quirks_init]: nothing probed, temperature reporting
    on, no offset. *)
Definition sample_state (ci : cpuid_info_t) (imc : Z) : state :=
  mk_state [] ci imc 0 true 0%Q (mk_quirk QUIRK_NONE 0 0 0 None).

Definition intel_cpu : cpuid_info_t := sample_cpu "GenuineIntel"%string 6 0 8 0 3.

(** For each rule a machine that matches this rule and no other. *)
Definition sample_bus_of (r : rule) : Bus :=
  match r with
  | R1 => sample_bus 0x10B9 0x1541 0 0 0 0xFF
  | R2 => sample_bus 0x8086 0x1130 0x1043 0x8027 0 0xFF
  | R3 => sample_bus 0x8086 0x6F00 0x15D9 0x0821 0 0xFF
  | R7 => sample_bus 0x8086 0x461C 0 0 0x54A3 0
  | _ => sample_bus 0x1022 0x1100 0 0 0 0
  end.

Definition sample_state_of (r : rule) : state :=
  match r with
  | R4 => sample_state (sample_cpu "AuthenticAMD"%string 0xF 0 4 0 0) 0
  | R5 => sample_state (sample_cpu "AuthenticAMD"%string 0xF 0 0xB 6 1) 0
  | R6 => sample_state (sample_cpu "AuthenticAMD"%string 0xF 1 2 0 3) 0
  | R7 => sample_state intel_cpu 0x3061
  | _ => sample_state intel_cpu 0
  end.


(** A machine no rule matches. *)
Definition plain_bus : Bus := sample_bus 0x8086 0x7190 0 0 0 0xFF.
Definition plain_state : state := sample_state intel_cpu 0.

(** A K8 of revision F (extended model 4), desktop, and one of revision G
    with extended model 6, desktop. *)
Definition revF_state : state :=
  sample_state (sample_cpu "AuthenticAMD"%string 0xF 0 3 4 2) 0.
Definition revG6_state : state :=
  sample_state (sample_cpu "AuthenticAMD"%string 0xF 0 3 6 2) 0.

(** An M1541 with the L2 cache enabled and the code 1 in L2CC-1[3:2]. *)
Definition m1541_bus : Bus := {|
  cfg8  := fun _ _ _ reg => if reg =? 0x42 then 0x01 else 0x04;
  cfg16 := fun _ _ _ _ => 0;
  cfg32 := fun _ _ _ _ => 0;
  lpc   := fun _ => 0
|}.

(** A machine whose L2 cache size is known already. *)
Definition probed_state : state :=
  mk_state [] intel_cpu 0 512 true 0%Q (mk_quirk QUIRK_NONE 0 0 0 None).

(** An ALi root bridge, an early K8 and an Alder-Lake-N memory controller
    with its ISA bridge: one rule of each group matches. *)
Definition three_rules_bus : Bus := sample_bus 0x10B9 0x1541 0 0 0x54A3 0xFF.
Definition three_rules_state : state :=
  sample_state (sample_cpu "AuthenticAMD"%string 0xF 0 4 0 0) 0x3061.

(** The machine of rule R7 after the unlock: the control register holds
    the value written. *)
Definition unlocked_bus : Bus := {|
  cfg8  := fun _ _ _ _ => 0;
  cfg16 := fun _ _ _ reg => if reg =? 0x04 then 1 else 0;
  cfg32 := fun _ _ _ _ => 0;
  lpc   := fun _ => 0
|}.

(* ------------------------------------------------------------------ *)
(** * Running a sequence *)

Lemma exec_seq {A} (m : M A) (k : M unit) (s : state) :
  exec (bind m (fun _ => k)) s = exec k (exec m s).
Proof. unfold exec, bind. destruct (m s); reflexivity. Qed.

Lemma exec_bind {A B} (m : M A) (k : A -> M B) (s : state) :
  exec (bind m k) s = exec (k (fst (m s))) (snd (m s)).
Proof. unfold exec, bind. destruct (m s); reflexivity. Qed.

(** Unfolds the monad and the primitives of one block. *)
Ltac run :=
  cbv [exec bind ret when get emit set_id set_type or_type set_root_vid
       set_root_did set_process modify_quirk set_l2_cache
       set_enable_temperature set_cpu_temp_offset outb usleep lpc_outb
       lpc_inb pci_config_read8 pci_config_read16 pci_config_read32
       pci_config_write8 pci_config_write16 snd fst
       trace cpuid_info imc_type l2_cache enable_temperature
       cpu_temp_offset quirk id type root_vid root_did process].

Ltac open_state s :=
  destruct s as [t ci imc l2 en off [qi qt qv qd qp]];
  cbn [trace cpuid_info imc_type l2_cache enable_temperature
       cpu_temp_offset quirk id type root_vid root_did process] in *.

Ltac fp_reads :=
  repeat (apply Forall_cons; [cbn; tauto|]); apply Forall_nil.

(** ** Bits *)

Lemma mux_channel_bits v i :
  0 <= v < 2 ^ 8 ->
  Z.testbit (mux_channel v) i =
  if i =? 4 then true else if i =? 3 then false else Z.testbit v i.
Proof.
  intros Hv. unfold mux_channel.
  rewrite Z.lor_spec, Z.land_spec.
  destruct (Z.ltb_spec i 0) as [Hneg|Hpos].
  { rewrite !(Z.testbit_neg_r _ i) by assumption.
    destruct (Z.eqb_spec i 4); [lia|]. destruct (Z.eqb_spec i 3); [lia|].
    reflexivity. }
  destruct (Z.ltb_spec i 8) as [Hlow|Hhigh].
  - assert (Hi : i = 0 \/ i = 1 \/ i = 2 \/ i = 3 \/ i = 4 \/ i = 5
                 \/ i = 6 \/ i = 7) by lia.
    destruct Hi as [->|[->|[->|[->|[->|[->|[->| ->]]]]]]]; cbn;
      rewrite ?andb_true_r, ?andb_false_r, ?orb_false_r, ?orb_true_r;
      reflexivity.
  - assert (Hvi : Z.testbit v i = false).
    { rewrite <- (Z.mod_small v (2 ^ 8)) by assumption.
      apply Z.mod_pow2_bits_high. lia. }
    rewrite Hvi.
    destruct (Z.eqb_spec i 4); [lia|]. destruct (Z.eqb_spec i 3); [lia|].
    replace (Z.testbit 0x10 i) with false; [reflexivity|].
    symmetry. change 0x10 with (0x10 mod 2 ^ 8).
    apply Z.mod_pow2_bits_high. lia.
Qed.

Lemma land_1_testbit x : (Z.land x 1 =? 0) = negb (Z.testbit x 0).
Proof.
  change 1 with (Z.ones 1) at 1. rewrite Z.land_ones by lia.
  change (2 ^ 1) with 2. rewrite <- Z.bit0_mod.
  destruct (Z.testbit x 0); reflexivity.
Qed.

Lemma lor_1_u16 x : (Z.lor (x mod 2 ^ 16) 1) mod 2 ^ 16 = Z.lor (x mod 2 ^ 16) 1.
Proof.
  rewrite <- !Z.land_ones by lia.
  change 1 with (Z.land 1 (Z.ones 16)) at 1 2.
  rewrite <- Z.land_lor_distr_l, <- Z.land_assoc, Z.land_diag. reflexivity.
Qed.

Lemma code_range x : 0 <= Z.land (Z.shiftr x 2) 3 < 4.
Proof.
  change 3 with (Z.ones 2). rewrite Z.land_ones by lia.
  apply Z.mod_pos_bound. lia.
Qed.

Section Proofs.

Context {hdr : Headers} {hw : Bus}.

(** ** Fingerprint reads *)

Lemma only_fingerprint_reads_refl s : only_fingerprint_reads s s.
Proof.
  repeat split; exists []; rewrite app_nil_r; auto.
Qed.

Lemma only_fingerprint_reads_trans s1 s2 s3 :
  only_fingerprint_reads s1 s2 -> only_fingerprint_reads s2 s3 ->
  only_fingerprint_reads s1 s3.
Proof.
  intros (a1 & a2 & a3 & a4 & a5 & e1 & t1 & f1)
         (b1 & b2 & b3 & b4 & b5 & e2 & t2 & f2).
  repeat split; try congruence.
  exists (e1 ++ e2). split.
  - rewrite t2, t1, app_assoc. reflexivity.
  - apply Forall_app; auto.
Qed.

Lemma matches_frame s s' r :
  only_fingerprint_reads s s' -> matches s' r = matches s r.
Proof.
  intros (a1 & a2 & _). unfold matches. rewrite a1, a2. reflexivity.
Qed.

Lemma step_record_root_ids s q r :
  root_ids_read q -> root_ids_read (step_record s q r).
Proof.
  unfold step_record, root_ids_read. destruct (matches s r); auto.
Qed.

(** ** The blocks *)

Lemma quirk_reset_spec s :
  quirk (exec quirk_reset s) = reset_record
  /\ only_fingerprint_reads s (exec quirk_reset s).
Proof.
  open_state s.
  unfold quirk_reset, reset_record, only_fingerprint_reads, read16. run.
  repeat split; auto.
  rewrite <- app_assoc. eexists; split; [reflexivity|]. fp_reads.
Qed.

Lemma quirk_ali_aladdin_v_spec s :
  root_ids_read (quirk s) ->
  quirk (exec quirk_ali_aladdin_v s) = step_record s (quirk s) R1
  /\ only_fingerprint_reads s (exec quirk_ali_aladdin_v s).
Proof.
  intros [Hv Hd]. open_state s.
  unfold step_record, matches, quirk_ali_aladdin_v, apply_rule.
  rewrite <- Hv, <- Hd. run.
  destruct (_ && _); run; split; auto using only_fingerprint_reads_refl.
  repeat split; exists []; rewrite app_nil_r; auto.
Qed.

Lemma quirk_asus_tusl2_spec s :
  root_ids_read (quirk s) ->
  quirk (exec quirk_asus_tusl2 s) = step_record s (quirk s) R2
  /\ only_fingerprint_reads s (exec quirk_asus_tusl2 s).
Proof.
  intros [Hv Hd]. open_state s.
  unfold step_record, matches, quirk_asus_tusl2, apply_rule,
    only_fingerprint_reads.
  rewrite <- Hv, <- Hd. unfold read16. run.
  destruct (_ && _); cbn [andb]; run.
  2:{ repeat split; exists []; rewrite app_nil_r; auto. }
  destruct (_ =? PCI_VID_ASUS); cbn [andb]; run.
  2:{ repeat split; eexists; split; [reflexivity|fp_reads]. }
  destruct (_ =? 0x8027); run; repeat split;
    rewrite <- app_assoc; eexists; (split; [reflexivity|fp_reads]).
Qed.

Lemma quirk_x10sdv_spec s :
  root_ids_read (quirk s) ->
  quirk (exec quirk_x10sdv s) = step_record s (quirk s) R3
  /\ only_fingerprint_reads s (exec quirk_x10sdv s).
Proof.
  intros [Hv Hd]. open_state s.
  unfold step_record, matches, quirk_x10sdv, apply_rule,
    only_fingerprint_reads.
  rewrite <- Hv, <- Hd. unfold read16. run.
  destruct (_ && _); cbn [andb]; run.
  2:{ repeat split; exists []; rewrite app_nil_r; auto. }
  destruct (_ =? PCI_VID_SUPERMICRO); run; repeat split;
    eexists; (split; [reflexivity|fp_reads]).
Qed.

Lemma quirk_k8_bstep_spec s :
  quirk (exec quirk_k8_bstep s) = step_record s (quirk s) R4
  /\ only_fingerprint_reads s (exec quirk_k8_bstep s).
Proof.
  open_state s.
  unfold step_record, matches, quirk_k8_bstep, apply_rule. run.
  destruct (amd_family_F _ _ && _); cbn [andb]; run;
    [destruct (_ || _); run|];
    split; auto using only_fingerprint_reads_refl;
    repeat split; exists []; rewrite app_nil_r; auto.
Qed.

Lemma quirk_k8_revfg_spec s :
  quirk (exec quirk_k8_revfg s) = step_record s (quirk s) R5
  /\ only_fingerprint_reads s (exec quirk_k8_revfg s).
Proof.
  open_state s.
  unfold step_record, matches, quirk_k8_revfg, apply_rule. run.
  destruct (amd_family_F _ _ && _); run;
    split; auto using only_fingerprint_reads_refl;
    repeat split; exists []; rewrite app_nil_r; auto.
Qed.

Lemma quirk_amd_errata_319_spec s :
  quirk (exec quirk_amd_errata_319 s) = step_record s (quirk s) R6
  /\ only_fingerprint_reads s (exec quirk_amd_errata_319 s).
Proof.
  open_state s.
  unfold step_record, matches, quirk_amd_errata_319, apply_rule,
    only_fingerprint_reads, read32. run.
  destruct (amd_family_F _ _ && _); cbn [andb]; run.
  2:{ repeat split; exists []; rewrite app_nil_r; auto. }
  destruct (orb _ (andb _ _)); cbn [andb]; run.
  2:{ repeat split; eexists; split; [reflexivity|fp_reads]. }
  destruct (orb (orb _ _) _); run; repeat split;
    eexists; (split; [reflexivity|fp_reads]).
Qed.

Lemma quirk_adl_n_spec s :
  quirk (exec quirk_adl_n s) = step_record s (quirk s) R7
  /\ only_fingerprint_reads s (exec quirk_adl_n s).
Proof.
  open_state s.
  unfold step_record, matches, quirk_adl_n, apply_rule,
    only_fingerprint_reads, read16. run.
  destruct (imc =? IMC_ADL_N); cbn [andb]; run.
  2:{ repeat split; exists []; rewrite app_nil_r; auto. }
  destruct (_ =? 0x54A3); run; repeat split;
    eexists; (split; [reflexivity|fp_reads]).
Qed.

(** ** The whole function *)

Lemma apply_rules_filter s l q :
  apply_rules (filter (matches s) l) q = fold_left (step_record s) l q.
Proof.
  revert q. induction l as [|r l IH]; intros q; cbn [filter fold_left].
  - reflexivity.
  - unfold step_record at 2. destruct (matches s r); [cbn|]; apply IH.
Qed.

Lemma fold_step_root_ids s l q :
  root_ids_read q -> root_ids_read (fold_left (step_record s) l q).
Proof.
  revert q. induction l as [|r l IH]; intros q Hq; cbn; auto.
  apply IH, step_record_root_ids, Hq.
Qed.

Lemma after_rules_step (b : M unit) (r : rule) s0 s rs :
  (forall s, root_ids_read (quirk s) ->
     quirk (exec b s) = step_record s (quirk s) r
     /\ only_fingerprint_reads s (exec b s)) ->
  after_rules s0 s rs -> after_rules s0 (exec b s) (rs ++ [r]).
Proof.
  intros Hb [Hq Hf].
  assert (Hids : root_ids_read (quirk s)).
  { rewrite Hq. apply fold_step_root_ids. split; reflexivity. }
  destruct (Hb s Hids) as [Hq' Hf']. split.
  - rewrite Hq', fold_left_app. cbn [fold_left]. rewrite <- Hq.
    unfold step_record. rewrite (matches_frame _ _ _ Hf). reflexivity.
  - eapply only_fingerprint_reads_trans; eassumption.
Qed.

Lemma quirks_init_record s :
  quirk (exec quirks_init s) = apply_rules (matching s) reset_record
  /\ only_fingerprint_reads s (exec quirks_init s).
Proof.
  unfold matching. rewrite apply_rules_filter.
  change (after_rules s (exec quirks_init s) rule_table).
  unfold quirks_init. rewrite !exec_seq.
  apply (after_rules_step quirk_adl_n R7 s _ [R1; R2; R3; R4; R5; R6]).
  { intros; apply quirk_adl_n_spec. }
  apply (after_rules_step quirk_amd_errata_319 R6 s _ [R1; R2; R3; R4; R5]).
  { intros; apply quirk_amd_errata_319_spec. }
  apply (after_rules_step quirk_k8_revfg R5 s _ [R1; R2; R3; R4]).
  { intros; apply quirk_k8_revfg_spec. }
  apply (after_rules_step quirk_k8_bstep R4 s _ [R1; R2; R3]).
  { intros; apply quirk_k8_bstep_spec. }
  apply (after_rules_step quirk_x10sdv R3 s _ [R1; R2]).
  { apply quirk_x10sdv_spec. }
  apply (after_rules_step quirk_asus_tusl2 R2 s _ [R1]).
  { apply quirk_asus_tusl2_spec. }
  apply (after_rules_step quirk_ali_aladdin_v R1 s _ []).
  { apply quirk_ali_aladdin_v_spec. }
  split; apply quirk_reset_spec.
Qed.

(** ** Records built by the table *)

Lemma fold_lor_init l a :
  fold_left Z.lor l a = Z.lor a (fold_left Z.lor l 0).
Proof.
  revert a. induction l as [|x l IH]; intros a; cbn [fold_left].
  - rewrite Z.lor_0_r. reflexivity.
  - rewrite IH, (IH (Z.lor 0 x)), Z.lor_0_l, Z.lor_assoc. reflexivity.
Qed.

Lemma apply_rules_type rs q :
  type (apply_rules rs q) = Z.lor (type q) (domains rs).
Proof.
  unfold apply_rules, domains. revert q.
  induction rs as [|r rs IH]; intros q; cbn [fold_left map].
  - rewrite Z.lor_0_r. reflexivity.
  - rewrite IH. cbn [apply_rule type].
    rewrite (fold_lor_init _ (Z.lor 0 _)), Z.lor_0_l, Z.lor_assoc.
    reflexivity.
Qed.

Lemma apply_rules_last rs r q d :
  id (apply_rules (rs ++ [r]) q) = rule_id (last (rs ++ [r]) d)
  /\ process (apply_rules (rs ++ [r]) q) = rule_process (last (rs ++ [r]) d).
Proof.
  unfold apply_rules. rewrite fold_left_app, last_last. cbn. auto.
Qed.

Lemma apply_rules_nonempty rs q d :
  rs <> [] ->
  id (apply_rules rs q) = rule_id (last rs d)
  /\ process (apply_rules rs q) = rule_process (last rs d).
Proof.
  intros Hne. destruct (exists_last Hne) as (rs' & r & ->).
  apply apply_rules_last.
Qed.

Lemma apply_rules_paired rs q :
  process q = action_of_id (id q) ->
  process (apply_rules rs q) = action_of_id (id (apply_rules rs q)).
Proof.
  unfold apply_rules. revert q.
  induction rs as [|r rs IH]; intros q Hq; cbn [fold_left]; auto.
  apply IH. destruct r; reflexivity.
Qed.

(** ** The claims on [quirks_init] *)


Lemma matching_none s :
  (forall r, matches s r = false) -> matching s = [].
Proof.
  intros Hno. unfold matching, rule_table. cbn [filter].
  rewrite !Hno. reflexivity.
Qed.

Lemma matching_In s r : In r (matching s) <-> matches s r = true.
Proof.
  unfold matching. rewrite filter_In. split; [tauto|].
  intros H; split; [|exact H]. destruct r; cbn; tauto.
Qed.



(** C5.  On a machine that matches none of the seven rules the record
    after [quirks_init] has [id] = [QUIRK_NONE], [type] = [QUIRK_TYPE_NONE]
    and [process] = NULL. *)
Theorem quirks_init_no_match s :
  (forall r, matches s r = false) ->
  let q := quirk (exec quirks_init s) in
  id q = QUIRK_NONE /\ type q = QUIRK_TYPE_NONE /\ process q = None.
Proof.
  intros Hno q. subst q.
  destruct (quirks_init_record s) as [-> _].
  rewrite (matching_none s Hno). cbn. auto.
Qed.

(** C10.  After [quirks_init], [process] is NULL exactly when [id] is
    [QUIRK_NONE] or [QUIRK_X10SDV_NOSMP].  Identifier and action are
    assigned together: the action is the one the table pairs with the
    identifier, and unless no rule matched both come from one matching
    rule. *)
Theorem quirks_init_action_paired s :
  let q := quirk (exec quirks_init s) in
  (process q = None <-> id q = QUIRK_NONE \/ id q = QUIRK_X10SDV_NOSMP)
  /\ process q = action_of_id (id q)
  /\ ((id q = QUIRK_NONE /\ process q = None)
      \/ exists r, matches s r = true
                   /\ id q = rule_id r /\ process q = rule_process r)
  /\ Forall (fun r => action_of_id (rule_id r) = rule_process r) rule_table.
Proof.
  intros q. subst q.
  destruct (quirks_init_record s) as [-> _].
  assert (Hp := apply_rules_paired (matching s) reset_record eq_refl).
  split; [|split; [exact Hp|split]].
  - rewrite Hp. destruct (id _); cbn; split; intros H;
      try discriminate; auto; destruct H; discriminate.
  - destruct (matching s) as [|r0 rs] eqn:E.
    + left. cbn. auto.
    + right. exists (last (r0 :: rs) R1).
      assert (Hne : r0 :: rs <> []) by discriminate.
      destruct (apply_rules_nonempty (r0 :: rs) reset_record R1 Hne) as [Hi Hq].
      split; [|split; assumption].
      apply matching_In. rewrite E.
      destruct (exists_last Hne) as (l' & x & Hx). rewrite Hx, last_last.
      apply in_or_app. right. left. reflexivity.
  - repeat constructor.
Qed.

(** C4, as amended.  [quirks_init] invokes no corrective fix inline, for
    any rule: all it does to the hardware are fingerprint reads of
    configuration space, it leaves [l2_cache], [enable_temperature] and
    [cpu_temp_offset] as they were, and the action of the last matching
    rule is only stored in [quirk.process]. *)
Theorem quirks_init_only_stores_action s :
  let s' := exec quirks_init s in
  only_fingerprint_reads s s'
  /\ process (quirk s') = process (apply_rules (matching s) reset_record).
Proof.
  intros s'. subst s'. destruct (quirks_init_record s) as [Hq Hf].
  split; [exact Hf|]. rewrite Hq. reflexivity.
Qed.

(** ** The claims on the corrective actions *)

(** C6.  [asus_tusl2_configure_mux] accesses the hardware in this order:
    0x87 to port 0x2E twice, a delay of 200 microseconds, the LPC write
    (0x7, 0x8), the LPC read of register 0xF1, the LPC write to 0xF1 of
    the value read with bits 4 and 3 cleared and bit 4 then set, a delay of
    200 microseconds, 0xAA to port 0x2E; it changes nothing else. *)
Theorem asus_tusl2_configure_mux_order s :
  let v := lpc 0xF1 mod 2 ^ 8 in
  let s' := exec asus_tusl2_configure_mux s in
  trace s' = trace s ++
    [Outb 0x87 0x2E; Outb 0x87 0x2E; Usleep 200;
     LpcOutb 0x7 0x8; LpcInb 0xF1 v; LpcOutb 0xF1 (mux_channel v);
     Usleep 200; Outb 0xAA 0x2E]
  /\ (forall i, Z.testbit (mux_channel v) i =
        if i =? 4 then true else if i =? 3 then false else Z.testbit v i)
  /\ l2_cache s' = l2_cache s
  /\ enable_temperature s' = enable_temperature s
  /\ cpu_temp_offset s' = cpu_temp_offset s
  /\ quirk s' = quirk s.
Proof.
  intros v s'. subst s'. split; [|split].
  - open_state s. unfold asus_tusl2_configure_mux. run.
    rewrite <- !app_assoc. reflexivity.
  - intros i. apply mux_channel_bits. apply Z.mod_pos_bound. lia.
  - open_state s. unfold asus_tusl2_configure_mux. run. auto.
Qed.

(** C7.  When [get_m1541_l2_cache_size] goes on to read the size register
    (the size is not cached and bit 0 of register 0x42 is set), the code in
    bits [3:2] of register 0x41 sets [l2_cache] to 256 for 0, 512 for 1 and
    1024 for 2; the code 3 leaves [l2_cache] as it was. *)
Theorem get_m1541_l2_cache_size_mapping s :
  l2_cache s = 0 ->
  Z.testbit (cfg8 0 0 0 0x42 mod 2 ^ 8) 0 = true ->
  let l2cc2 := cfg8 0 0 0 0x42 mod 2 ^ 8 in
  let l2cc1 := cfg8 0 0 0 0x41 mod 2 ^ 8 in
  let code := Z.land (Z.shiftr l2cc1 2) 3 in
  let s' := exec get_m1541_l2_cache_size s in
  trace s' = trace s ++ [PciRead8 0 0 0 0x42 l2cc2; PciRead8 0 0 0 0x41 l2cc1]
  /\ 0 <= code < 4
  /\ l2_cache s' = m1541_size code (l2_cache s)
  /\ (code = 3 -> l2_cache s' = l2_cache s).
Proof.
  intros Hl2 Hen l2cc2 l2cc1 code s'. subst s'.
  assert (Hc := code_range l2cc1). fold code in Hc.
  assert (Hb : (Z.land l2cc2 1 =? 0) = false).
  { rewrite land_1_testbit. subst l2cc2. rewrite Hen. reflexivity. }
  open_state s. subst l2. unfold get_m1541_l2_cache_size. run.
  fold l2cc2. rewrite Hb. cbv [Z.eqb negb]. fold l2cc1. fold code.
  assert (Hcases : code = 0 \/ code = 1 \/ code = 2 \/ code = 3) by lia.
  rewrite <- app_assoc.
  destruct Hcases as [E|[E|[E|E]]]; rewrite E; cbn;
    repeat split; auto; lia.
Qed.

(** With a non-zero [l2_cache] the probe returns at once. *)
Lemma l2_cache_known_no_probe s :
  l2_cache s <> 0 -> exec get_m1541_l2_cache_size s = s.
Proof.
  intros Hl2. apply Z.eqb_neq in Hl2. open_state s.
  unfold get_m1541_l2_cache_size. run. rewrite Hl2. reflexivity.
Qed.

(** C8.  With a non-zero [l2_cache], [get_m1541_l2_cache_size] does
    nothing: no register access, the cached value and every other global
    unchanged; so a second call in succession changes nothing either. *)
Theorem get_m1541_l2_cache_size_idempotent s :
  l2_cache s <> 0 ->
  exec get_m1541_l2_cache_size s = s
  /\ trace (exec get_m1541_l2_cache_size s) = trace s
  /\ l2_cache (exec get_m1541_l2_cache_size s) = l2_cache s
  /\ exec get_m1541_l2_cache_size (exec get_m1541_l2_cache_size s)
     = exec get_m1541_l2_cache_size s.
Proof.
  intros Hl2. rewrite !(l2_cache_known_no_probe s Hl2). auto.
Qed.

(** After a probe that found the size, a second probe does nothing. *)
Lemma second_probe_after_success s :
  l2_cache (exec get_m1541_l2_cache_size s) <> 0 ->
  exec get_m1541_l2_cache_size (exec get_m1541_l2_cache_size s)
  = exec get_m1541_l2_cache_size s.
Proof. apply l2_cache_known_no_probe. Qed.

(** C9.  [adl_unlock_smbus] reads the 16-bit register once; it writes the
    value read with bit 0 set when bit 0 of the value read is clear, and
    does not write at all when bit 0 is set. *)
Theorem adl_unlock_smbus_once s :
  let x := cfg16 0 31 4 0x04 mod 2 ^ 16 in
  let s' := exec adl_unlock_smbus s in
  trace s' = trace s ++
    PciRead16 0 31 4 0x04 x ::
    (if Z.testbit x 0 then [] else [PciWrite16 0 31 4 0x04 (Z.lor x 1)])
  /\ l2_cache s' = l2_cache s
  /\ enable_temperature s' = enable_temperature s
  /\ cpu_temp_offset s' = cpu_temp_offset s
  /\ quirk s' = quirk s.
Proof.
  intros x s'. subst s'. open_state s. unfold adl_unlock_smbus. run.
  fold x. rewrite land_1_testbit.
  destruct (Z.testbit x 0); cbn [negb]; repeat split; auto.
  subst x. rewrite lor_1_u16, <- app_assoc. reflexivity.
Qed.

(** What [amd_k8_revfg_temp] does to the offset: the first guard never
    holds and the second holds exactly for the extended model 6, so the
    offset is assigned for every extended model but 6, on a part that is
    not mobile. *)
Lemma revfg_offset_by_code s :
  let v := version (cpuid_info s) in
  cpu_temp_offset (exec amd_k8_revfg_temp s) =
  if (extendedModel v =? 6) || mobile v then cpu_temp_offset s else 21 # 1.
Proof.
  intros v. subst v. open_state s. unfold amd_k8_revfg_temp, mobile.
  set (v := version ci).
  assert (H1 : (extendedModel v <? 6) && (extendedModel v >? 7) = false).
  { destruct (Z.ltb_spec (extendedModel v) 6); [|reflexivity].
    cbn. rewrite Z.gtb_ltb. apply Z.ltb_ge. lia. }
  assert (H2 : (extendedModel v =? 6) && (extendedModel v <? 9)
               = (extendedModel v =? 6)).
  { destruct (Z.eqb_spec (extendedModel v) 6) as [->|]; reflexivity. }
  rewrite exec_bind, exec_seq.
  destruct (Z.land _ 0xFF =? 0); run; fold v; rewrite H1, H2;
    destruct (extendedModel v =? 6);
    destruct (mobile_single_core v); destruct (mobile_dual_core v);
    reflexivity.
Qed.

(** Every call of a corrective action is visible, unless the L2 cache size
    is known already. *)
Lemma call_visible a s :
  l2_cache s = 0 -> fix_visible a s (exec (call a) s) = true.
Proof.
  intros Hl2. open_state s. subst l2.
  assert (Hskip : forall evs : list event,
             skipn (List.length t) (t ++ evs) = evs).
  { intros evs. rewrite skipn_app, Nat.sub_diag, skipn_all. reflexivity. }
  destruct a; unfold fix_visible, call.
  - unfold get_m1541_l2_cache_size. run.
    change (negb (0 =? 0)) with false. cbv beta iota.
    destruct (Z.land _ 1 =? 0).
    + rewrite Hskip. reflexivity.
    + destruct (_ =? 0); destruct (_ =? 1); destruct (_ =? 2);
        rewrite <- app_assoc, Hskip; reflexivity.
  - unfold asus_tusl2_configure_mux. run.
    rewrite <- !app_assoc, Hskip. reflexivity.
  - reflexivity.
  - unfold amd_k8_revfg_temp.
    assert (Hfirst : forall e evs,
      existsb (first_access amd_k8_revfg_temp_ptr)
        (PciRead32 0 24 3 AMD_TEMP_REG_K8 e :: evs) = true).
    { intros. cbn. rewrite Z.eqb_refl. reflexivity. }
    rewrite exec_bind, exec_seq. destruct (Z.land _ 0xFF =? 0); run;
      repeat match goal with
             | |- context [if ?b then _ else _] => destruct b
             end;
      rewrite <- ?app_assoc, Hskip; apply Hfirst.
  - unfold adl_unlock_smbus. run.
    destruct (_ =? 0); rewrite <- ?app_assoc, Hskip; reflexivity.
Qed.

(** A fingerprint read is the first access of no corrective action. *)
Lemma fingerprint_read_not_first_access a e :
  fingerprint_read e -> first_access a e = false.
Proof.
  intros H.
  destruct a, e; try reflexivity; try contradiction;
    cbn [fingerprint_read first_access] in *;
    repeat match type of H with
           | context [match ?p with _ => _ end] =>
               destruct p; try reflexivity; try contradiction
           end.
Qed.

(** So no fix is visible after [quirks_init], on any machine. *)
Lemma quirks_init_fix_not_visible a s :
  enable_temperature s = true ->
  fix_visible a s (exec quirks_init s) = false.
Proof.
  intros Hen.
  destruct (quirks_init_record s)
    as (_ & _ & _ & _ & Het & _ & evs & Ht & Hevs).
  assert (Hnone : existsb (first_access a) evs = false).
  { clear Ht. induction Hevs as [|e evs He _ IH]; [reflexivity|].
    cbn [existsb]. rewrite IH, (fingerprint_read_not_first_access a e He).
    reflexivity. }
  unfold fix_visible. rewrite Ht, Het, Hen.
  rewrite skipn_app, Nat.sub_diag, skipn_all. cbn [skipn app negb].
  destruct a; auto.
Qed.

End Proofs.

(* ------------------------------------------------------------------ *)
(** * Examples on the sample machines *)

Example sample_machines_match_one_rule :
  map (fun r => @matching sample_headers (sample_bus_of r) (sample_state_of r))
      rule_table
  = [[R1]; [R2]; [R3]; [R4]; [R5]; [R6]; [R7]].
Proof. vm_compute. reflexivity. Qed.

Example quirks_init_on_samples :
  map (fun r => quirk (exec (@quirks_init sample_headers (sample_bus_of r))
                            (sample_state_of r)))
      rule_table
  = [mk_quirk QUIRK_ALI_ALADDIN_V 0x40 0x10B9 0x1541
       (Some get_m1541_l2_cache_size_ptr);
     mk_quirk QUIRK_TUSL2 0x10 0x8086 0x1130
       (Some asus_tusl2_configure_mux_ptr);
     mk_quirk QUIRK_X10SDV_NOSMP 0x04 0x8086 0x6F00 None;
     mk_quirk QUIRK_K8_BSTEP_NOTEMP 0x80 0x1022 0x1100
       (Some disable_temp_reporting_ptr);
     mk_quirk QUIRK_K8_REVFG_TEMP 0x80 0x1022 0x1100
       (Some amd_k8_revfg_temp_ptr);
     mk_quirk QUIRK_AMD_ERRATA_319 0x80 0x1022 0x1100
       (Some disable_temp_reporting_ptr);
     mk_quirk QUIRK_ADL_SMB_UNLOCK 0x10 0x8086 0x461C
       (Some adl_unlock_smbus_ptr)].
Proof. vm_compute. reflexivity. Qed.

Example quirks_init_trace_tusl2 :
  trace (exec (@quirks_init sample_headers (sample_bus_of R2))
              (sample_state_of R2))
  = [PciRead16 0 0 0 0x00 0x8086; PciRead16 0 0 0 0x02 0x1130;
     PciRead16 0 0 0 0x2C 0x1043; PciRead16 0 0 0 0x2E 0x8027].
Proof. vm_compute. reflexivity. Qed.

Example asus_tusl2_configure_mux_trace :
  trace (exec (@asus_tusl2_configure_mux (sample_bus_of R2))
              (sample_state_of R2))
  = [Outb 0x87 0x2E; Outb 0x87 0x2E; Usleep 200; LpcOutb 0x7 0x8;
     LpcInb 0xF1 0xFF; LpcOutb 0xF1 0xF7; Usleep 200; Outb 0xAA 0x2E].
Proof. vm_compute. reflexivity. Qed.

Example adl_unlock_smbus_locked :
  trace (exec (@adl_unlock_smbus (sample_bus_of R7)) (sample_state_of R7))
  = [PciRead16 0 31 4 0x04 0; PciWrite16 0 31 4 0x04 1].
Proof. vm_compute. reflexivity. Qed.

Example adl_unlock_smbus_unlocked :
  trace (exec (@adl_unlock_smbus (sample_bus_of R1)) (sample_state_of R7))
  = [PciRead16 0 31 4 0x04 0xFF].
Proof. vm_compute. reflexivity. Qed.

Example amd_k8_revfg_temp_write8 :
  trace (exec (@amd_k8_revfg_temp sample_headers (sample_bus_of R5))
              (sample_state_of R5))
  = [PciRead32 0 24 3 0xE4 0; PciWrite8 0 24 3 0xE4 0x04].
Proof. vm_compute. reflexivity. Qed.

(** * The theorems at sample machines *)



Lemma quirks_init_no_match_witness :
  (forall r, @matches sample_headers plain_bus plain_state r = false)
  /\ let q := quirk (exec (@quirks_init sample_headers plain_bus)
                          plain_state) in
     id q = QUIRK_NONE /\ type q = 0 /\ process q = None.
Proof.
  assert (Hno : forall r, @matches sample_headers plain_bus plain_state r
                          = false).
  { intros r. destruct r; reflexivity. }
  split; [exact Hno|].
  exact (@quirks_init_no_match sample_headers plain_bus plain_state Hno).
Defined.

Lemma get_m1541_l2_cache_size_mapping_witness :
  l2_cache plain_state = 0
  /\ Z.testbit (@cfg8 m1541_bus 0 0 0 0x42 mod 2 ^ 8) 0 = true
  /\ l2_cache (exec (@get_m1541_l2_cache_size m1541_bus) plain_state) = 512.
Proof.
  split; [reflexivity|split; [reflexivity|]].
  pose proof (@get_m1541_l2_cache_size_mapping m1541_bus plain_state
                eq_refl eq_refl) as H.
  cbv zeta in H. destruct H as (_ & _ & H & _).
  rewrite H. vm_compute. reflexivity.
Defined.

Lemma get_m1541_l2_cache_size_idempotent_witness :
  l2_cache probed_state <> 0
  /\ exec (@get_m1541_l2_cache_size m1541_bus) probed_state = probed_state.
Proof.
  assert (Hl2 : l2_cache probed_state <> 0) by (vm_compute; discriminate).
  split; [exact Hl2|].
  apply (@get_m1541_l2_cache_size_idempotent m1541_bus probed_state Hl2).
Defined.

(** * Where the code and the specification part *)



(** C4, as stated, fails: no rule has a fix that [quirks_init] invokes
    inline.  On the sample machine of each rule the fix of the rule is not
    visible after [quirks_init]. *)
Lemma quirks_init_runs_no_fix_inline : ~ exists r, fix_runs_inline r.
Proof.
  intros (r & a & Hp & H).
  specialize (H sample_headers (sample_bus_of r) (sample_state_of r)).
  destruct r; cbn in Hp; try discriminate; injection Hp as <-;
    specialize (H eq_refl eq_refl eq_refl); vm_compute in H; discriminate.
Qed.

(** C3.  [amd_k8_revfg_temp] on two desktop parts: for the extended model
    4, outside [6,9), the code assigns the offset 21.0; for the extended
    model 6, inside [6,9), it leaves the offset as it was. *)
Theorem amd_k8_revfg_temp_offset_misapplied :
  let vF := version (cpuid_info revF_state) in
  let vG := version (cpuid_info revG6_state) in
  (extendedModel vF = 4 /\ offset_expected vF = false
   /\ cpu_temp_offset (exec (@amd_k8_revfg_temp sample_headers plain_bus)
                            revF_state) = 21 # 1)
  /\ (extendedModel vG = 6 /\ offset_expected vG = true
      /\ cpu_temp_offset (exec (@amd_k8_revfg_temp sample_headers plain_bus)
                               revG6_state) = cpu_temp_offset revG6_state).
Proof. vm_compute. repeat split. Qed.

(* ------------------------------------------------------------------ *)
(** * More on [quirks_init] and on the corrective actions *)

(** ** Bytes and bits *)

Lemma byte_forall (P : Z -> bool) :
  forallb P (map Z.of_nat (seq 0 256)) = true ->
  forall v, 0 <= v < 2 ^ 8 -> P v = true.
Proof.
  intros Hall v Hv. rewrite forallb_forall in Hall. apply Hall.
  rewrite <- (Z2Nat.id v) by lia. apply in_map, in_seq.
  change (2 ^ 8) with 256 in Hv. lia.
Qed.

Lemma sensor_select_bits rtcr i :
  Z.testbit (sensor_select rtcr) i =
  (0 <=? i) && (i <? 8) && (Z.testbit rtcr i || (i =? 2)).
Proof.
  unfold sensor_select.
  destruct (Z.leb_spec 0 i) as [Hpos|Hneg]; cbn [andb].
  2:{ apply Z.testbit_neg_r. assumption. }
  destruct (Z.ltb_spec i 8) as [Hlow|Hhigh]; cbn [andb].
  - rewrite Z.mod_pow2_bits_low, Z.lor_spec by lia.
    change 0x04 with (2 ^ 2). rewrite Z.pow2_bits_eqb by lia.
    rewrite (Z.eqb_sym 2 i). reflexivity.
  - apply Z.mod_pow2_bits_high. lia.
Qed.

Lemma lor_1_bits x i : Z.testbit (Z.lor x 1) i = Z.testbit x i || (i =? 0).
Proof.
  rewrite Z.lor_spec. change 1 with (2 ^ 0) at 1.
  destruct (Z.ltb_spec i 0).
  - rewrite !Z.testbit_neg_r by assumption.
    destruct (Z.eqb_spec i 0); [lia|reflexivity].
  - rewrite Z.pow2_bits_eqb, (Z.eqb_sym 0 i) by lia. reflexivity.
Qed.

Section Unlock.

Context {hw : Bus}.

Lemma adl_unlock_smbus_trace s :
  trace (exec adl_unlock_smbus s) = trace s ++
    PciRead16 0 31 4 0x04 (cfg16 0 31 4 0x04 mod 2 ^ 16) ::
    (if Z.testbit (cfg16 0 31 4 0x04 mod 2 ^ 16) 0 then []
     else [PciWrite16 0 31 4 0x04
             (Z.lor (cfg16 0 31 4 0x04 mod 2 ^ 16) 1 mod 2 ^ 16)]).
Proof.
  open_state s. unfold adl_unlock_smbus. run. rewrite land_1_testbit.
  destruct (Z.testbit _ 0); cbn [negb]; [reflexivity|].
  rewrite <- app_assoc. reflexivity.
Qed.

End Unlock.

Section Coverage.

Context {hdr : Headers} {hw : Bus}.

(** ** The reads of [quirks_init], block by block *)

Lemma rule_reads_frame s s' r :
  only_fingerprint_reads s s' -> rule_reads s' r = rule_reads s r.
Proof.
  intros (a1 & a2 & _). unfold rule_reads. rewrite a1, a2. reflexivity.
Qed.

Lemma quirk_reset_reads s :
  trace (exec quirk_reset s) = trace s ++ reset_reads.
Proof.
  open_state s. unfold quirk_reset, reset_reads, read16. run.
  rewrite <- app_assoc. reflexivity.
Qed.

Lemma quirk_ali_aladdin_v_reads s :
  trace (exec quirk_ali_aladdin_v s) = trace s ++ rule_reads s R1.
Proof.
  open_state s. unfold quirk_ali_aladdin_v, rule_reads. run.
  destruct (_ && _); run; rewrite app_nil_r; reflexivity.
Qed.

Lemma quirk_asus_tusl2_reads s :
  root_ids_read (quirk s) ->
  trace (exec quirk_asus_tusl2 s) = trace s ++ rule_reads s R2.
Proof.
  intros [Hv Hd]. open_state s. unfold quirk_asus_tusl2, rule_reads.
  rewrite <- Hv, <- Hd. unfold read16. run.
  destruct (_ && _); run; [|rewrite app_nil_r; reflexivity].
  destruct (_ =? PCI_VID_ASUS); run; [|reflexivity].
  destruct (_ =? 0x8027); run; rewrite <- app_assoc; reflexivity.
Qed.

Lemma quirk_x10sdv_reads s :
  root_ids_read (quirk s) ->
  trace (exec quirk_x10sdv s) = trace s ++ rule_reads s R3.
Proof.
  intros [Hv Hd]. open_state s. unfold quirk_x10sdv, rule_reads.
  rewrite <- Hv, <- Hd. unfold read16. run.
  destruct (_ && _); run; [|rewrite app_nil_r; reflexivity].
  destruct (_ =? PCI_VID_SUPERMICRO); run; reflexivity.
Qed.

Lemma quirk_k8_bstep_reads s :
  trace (exec quirk_k8_bstep s) = trace s ++ rule_reads s R4.
Proof.
  open_state s. unfold quirk_k8_bstep, rule_reads. run.
  destruct (amd_family_F _ _ && _); run; [destruct (_ || _); run|];
    rewrite app_nil_r; reflexivity.
Qed.

Lemma quirk_k8_revfg_reads s :
  trace (exec quirk_k8_revfg s) = trace s ++ rule_reads s R5.
Proof.
  open_state s. unfold quirk_k8_revfg, rule_reads. run.
  destruct (amd_family_F _ _ && _); run; rewrite app_nil_r; reflexivity.
Qed.

Lemma quirk_amd_errata_319_reads s :
  trace (exec quirk_amd_errata_319 s) = trace s ++ rule_reads s R6.
Proof.
  open_state s. unfold quirk_amd_errata_319, rule_reads, read32. run.
  destruct (amd_family_F _ _ && _); run; [|rewrite app_nil_r; reflexivity].
  destruct (orb _ (andb _ _)); run; [|reflexivity].
  destruct (orb (orb _ _) _); run; reflexivity.
Qed.

Lemma quirk_adl_n_reads s :
  trace (exec quirk_adl_n s) = trace s ++ rule_reads s R7.
Proof.
  open_state s. unfold quirk_adl_n, rule_reads, read16. run.
  destruct (imc =? IMC_ADL_N); run; [|rewrite app_nil_r; reflexivity].
  destruct (_ =? 0x54A3); run; reflexivity.
Qed.

Lemma reads_after_step (b : M unit) (r : rule) s0 s rs :
  (forall s, root_ids_read (quirk s) ->
     quirk (exec b s) = step_record s (quirk s) r
     /\ only_fingerprint_reads s (exec b s)) ->
  (forall s, root_ids_read (quirk s) ->
     trace (exec b s) = trace s ++ rule_reads s r) ->
  reads_after s0 s rs -> reads_after s0 (exec b s) (rs ++ [r]).
Proof.
  intros Hb Ht [Ha Hs]. split.
  - apply after_rules_step; assumption.
  - assert (Hids : root_ids_read (quirk s)).
    { destruct Ha as [Hq _]. rewrite Hq. apply fold_step_root_ids.
      split; reflexivity. }
    rewrite (Ht s Hids), Hs. destruct Ha as [_ Hf].
    rewrite (rule_reads_frame _ _ _ Hf), map_app, concat_app.
    cbn [map List.concat]. rewrite app_nil_r, <- !app_assoc. reflexivity.
Qed.

Lemma quirks_init_reads_after s :
  reads_after s (exec quirks_init s) rule_table.
Proof.
  unfold quirks_init. rewrite !exec_seq.
  apply (reads_after_step quirk_adl_n R7 s _ [R1; R2; R3; R4; R5; R6]).
  { intros; apply quirk_adl_n_spec. } { intros; apply quirk_adl_n_reads. }
  apply (reads_after_step quirk_amd_errata_319 R6 s _ [R1; R2; R3; R4; R5]).
  { intros; apply quirk_amd_errata_319_spec. }
  { intros; apply quirk_amd_errata_319_reads. }
  apply (reads_after_step quirk_k8_revfg R5 s _ [R1; R2; R3; R4]).
  { intros; apply quirk_k8_revfg_spec. }
  { intros; apply quirk_k8_revfg_reads. }
  apply (reads_after_step quirk_k8_bstep R4 s _ [R1; R2; R3]).
  { intros; apply quirk_k8_bstep_spec. }
  { intros; apply quirk_k8_bstep_reads. }
  apply (reads_after_step quirk_x10sdv R3 s _ [R1; R2]).
  { apply quirk_x10sdv_spec. } { apply quirk_x10sdv_reads. }
  apply (reads_after_step quirk_asus_tusl2 R2 s _ [R1]).
  { apply quirk_asus_tusl2_spec. } { apply quirk_asus_tusl2_reads. }
  apply (reads_after_step quirk_ali_aladdin_v R1 s _ []).
  { apply quirk_ali_aladdin_v_spec. }
  { intros; apply quirk_ali_aladdin_v_reads. }
  split.
  - split; apply quirk_reset_spec.
  - rewrite quirk_reset_reads. cbn [map List.concat].
    rewrite app_nil_r. reflexivity.
Qed.

(** X1.  The hardware accesses of one run of [quirks_init] are exactly
    these reads, in this order: root vendor and device identifier always;
    the subsystem vendor identifier only on an Intel 0x1130 or 0x6F00 root
    bridge, and the subsystem device identifier only when the vendor of
    the 0x1130 board is ASUS; the DRAM register 0x94 only behind the K10
    family test; the ISA bridge identifier only when [imc_type] is
    [IMC_ADL_N].  So a run makes between two and six reads. *)
Theorem quirks_init_reads_exactly s :
  let s' := exec quirks_init s in
  trace s' = trace s ++ fingerprint_trace s
  /\ (2 <= List.length (fingerprint_trace s) <= 6)%nat.
Proof.
  intros s'. subst s'. split.
  - apply quirks_init_reads_after.
  - unfold fingerprint_trace, rule_table, rule_reads, reset_reads.
    cbn [map List.concat].
    destruct (Z.eqb_spec (read16 0 0 0 PCI_DID_REG) 0x1130) as [E1|_];
      destruct (Z.eqb_spec (read16 0 0 0 PCI_DID_REG) 0x6F00) as [E2|_];
      try (exfalso; rewrite E1 in E2; discriminate E2);
      rewrite ?andb_false_r, ?andb_true_r;
      repeat match goal with
             | |- context [if ?b then _ else _] => destruct b
             end; cbn; lia.
Qed.

(** ** Rules of one group *)

Lemma same_group_exclusive s r1 r2 :
  matches s r1 = true -> matches s r2 = true ->
  rule_group r1 = rule_group r2 -> r1 = r2.
Proof.
  intros H1 H2 Hg.
  destruct r1, r2; try reflexivity; try discriminate Hg;
    exfalso; unfold matches, amd_family_F in H1, H2;
    rewrite ?andb_true_iff in H1, H2;
    repeat match goal with H : _ /\ _ |- _ => destruct H end;
    repeat match goal with
           | H : (_ =? _) = true |- _ => apply Z.eqb_eq in H
           | H : (_ >=? _) = true |- _ => apply Z.geb_le in H
           end;
    try lia;
    match goal with
    | Ha : ?x = _, Hb : ?x = _ |- _ => rewrite Ha in Hb; discriminate Hb
    end.
Qed.

Lemma pair_exclusive s r1 r2 :
  r1 <> r2 -> rule_group r1 = rule_group r2 ->
  matches s r1 && matches s r2 = false.
Proof.
  intros Hne Hg.
  destruct (matches s r1) eqn:E1; destruct (matches s r2) eqn:E2;
    try reflexivity.
  elim Hne. eapply same_group_exclusive; eassumption.
Qed.

(** X2.  Rules keyed on the same thing exclude each other: at most one of
    the root-bridge rules R1 to R3 and at most one of the CPU rules R4 to
    R6 match, so never more than three rules match. *)
Theorem quirks_init_one_rule_per_group s :
  NoDup (map rule_group (matching s))
  /\ (List.length (matching s) <= 3)%nat.
Proof.
  assert (H12 := pair_exclusive s R1 R2 ltac:(discriminate) eq_refl).
  assert (H13 := pair_exclusive s R1 R3 ltac:(discriminate) eq_refl).
  assert (H23 := pair_exclusive s R2 R3 ltac:(discriminate) eq_refl).
  assert (H45 := pair_exclusive s R4 R5 ltac:(discriminate) eq_refl).
  assert (H46 := pair_exclusive s R4 R6 ltac:(discriminate) eq_refl).
  assert (H56 := pair_exclusive s R5 R6 ltac:(discriminate) eq_refl).
  unfold matching, rule_table. cbn [filter].
  destruct (matches s R1); destruct (matches s R2); try discriminate;
    destruct (matches s R3); try discriminate;
    destruct (matches s R4); destruct (matches s R5); try discriminate;
    destruct (matches s R6); try discriminate;
    destruct (matches s R7); cbn [map rule_group List.length];
    (split; [|lia]);
    repeat (apply NoDup_cons; [cbn; intuition discriminate|]);
    apply NoDup_nil.
Qed.

(** ** The domains *)

Lemma fold_lor_testbit l a i :
  Z.testbit (fold_left Z.lor l a) i
  = Z.testbit a i || existsb (fun d => Z.testbit d i) l.
Proof.
  revert a. induction l as [|d l IH]; intros a; cbn [fold_left existsb].
  - rewrite orb_false_r. reflexivity.
  - rewrite IH, Z.lor_spec, orb_assoc. reflexivity.
Qed.

Lemma quirks_init_type_bits s i :
  Z.testbit (type (quirk (exec quirks_init s))) i
  = Z.testbit QUIRK_TYPE_NONE i
    || existsb (fun r => Z.testbit (rule_type r) i) (matching s).
Proof.
  destruct (quirks_init_record s) as [-> _].
  rewrite apply_rules_type. cbn [reset_record type].
  unfold domains. rewrite Z.lor_spec, fold_lor_testbit, Z.bits_0.
  cbn [orb]. f_equal. induction (matching s) as [|r rs IH]; cbn; congruence.
Qed.

(** X3.  No domain is lost: the domains of every matching rule are set
    in [quirk.type] after [quirks_init], also for a rule whose identifier
    and action were overwritten; and a bit of [quirk.type] is set only if
    it is set in [QUIRK_TYPE_NONE] or in the domains of a matching rule. *)
Theorem quirks_init_keeps_every_domain s r :
  matches s r = true ->
  let q := quirk (exec quirks_init s) in
  Z.land (type q) (rule_type r) = rule_type r
  /\ forall i, Z.testbit (type q) i
               = Z.testbit QUIRK_TYPE_NONE i
                 || existsb (fun r' => Z.testbit (rule_type r') i) (matching s).
Proof.
  intros Hr q. subst q. split; [|apply quirks_init_type_bits].
  apply Z.bits_inj'. intros i _.
  rewrite Z.land_spec, quirks_init_type_bits.
  destruct (Z.testbit (rule_type r) i) eqn:E;
    [|rewrite andb_false_r; reflexivity].
  rewrite andb_true_r.
  assert (Hex : existsb (fun r' => Z.testbit (rule_type r') i) (matching s)
                = true).
  { apply existsb_exists. exists r. split; [|exact E].
    apply matching_In. exact Hr. }
  rewrite Hex. apply orb_true_r.
Qed.

(** ** The record does not depend on what it held *)

Lemma matching_same_fingerprint s1 s2 :
  cpuid_info s1 = cpuid_info s2 -> imc_type s1 = imc_type s2 ->
  matching s1 = matching s2.
Proof.
  intros Hc Hi. unfold matching. apply filter_ext. intros r.
  unfold matches. rewrite Hc, Hi. reflexivity.
Qed.

(** X4.  [quirks_init] assigns every field of the record before it reads
    one: the record after the call does not depend on the record before,
    and a second run on the same machine gives the same record, with no
    domain accumulated from the first. *)
Theorem quirks_init_forgets_old_record s q0 :
  quirk (exec quirks_init (exec (modify_quirk (fun _ => q0)) s))
  = quirk (exec quirks_init s)
  /\ quirk (exec quirks_init (exec quirks_init s))
     = quirk (exec quirks_init s).
Proof.
  split.
  - destruct (quirks_init_record s) as [-> _].
    destruct (quirks_init_record (exec (modify_quirk (fun _ => q0)) s))
      as [-> _].
    f_equal; apply matching_same_fingerprint; reflexivity.
  - destruct (quirks_init_record s) as [Hq (Hc & Hi & _)].
    destruct (quirks_init_record (exec quirks_init s)) as [-> _].
    rewrite Hq. f_equal; apply matching_same_fingerprint; assumption.
Qed.

(** X5.  Whatever rule matches, the record keeps the vendor and device
    identifier of the root bridge as read, both 16-bit values. *)
Theorem quirks_init_root_ids s :
  let q := quirk (exec quirks_init s) in
  root_vid q = cfg16 0 0 0 PCI_VID_REG mod 2 ^ 16
  /\ root_did q = cfg16 0 0 0 PCI_DID_REG mod 2 ^ 16
  /\ 0 <= root_vid q < 2 ^ 16
  /\ 0 <= root_did q < 2 ^ 16.
Proof.
  intros q. subst q. destruct (quirks_init_record s) as [-> _].
  unfold matching. rewrite apply_rules_filter.
  destruct (fold_step_root_ids s rule_table reset_record) as [Hv Hd].
  { split; reflexivity. }
  rewrite Hv, Hd. unfold read16.
  repeat split; try apply Z.mod_pos_bound; lia.
Qed.

(** X6.  On a CPU whose vendor string does not start with 'A' none of
    the three AMD rules matches and [quirks_init] makes 16-bit reads only:
    the DRAM controller register is not read. *)
Theorem quirks_init_other_vendor s :
  Ascii.eqb (str0 (vendor_id (cpuid_info s))) "A"%char = false ->
  let s' := exec quirks_init s in
  matches s R4 = false /\ matches s R5 = false /\ matches s R6 = false
  /\ exists evs, trace s' = trace s ++ evs
     /\ Forall (fun e => match e with
                         | PciRead16 _ _ _ _ _ => True
                         | _ => False
                         end) evs.
Proof.
  intros Hv s'. subst s'.
  assert (Hf : forall ef, amd_family_F (cpuid_info s) ef = false).
  { intros ef. unfold amd_family_F. rewrite Hv. reflexivity. }
  repeat split; try (unfold matches; rewrite Hf; reflexivity).
  exists (fingerprint_trace s). split.
  - apply quirks_init_reads_after.
  - unfold fingerprint_trace, rule_table, rule_reads, reset_reads.
    cbn [map List.concat]. rewrite Hf. cbn [andb app].
    repeat match goal with
           | |- context [if ?b then _ else _] => destruct b
           end; cbn [app]; repeat constructor.
Qed.

(** ** The corrective actions *)

(** X8.  [get_m1541_l2_cache_size] only reads: register 0x42 when no size
    is cached, register 0x41 only if bit 0 of register 0x42 is set.  With
    that bit clear the size stays unknown (zero); it changes no other
    global. *)
Theorem get_m1541_l2_cache_size_accesses s :
  let l2cc2 := cfg8 0 0 0 0x42 mod 2 ^ 8 in
  let l2cc1 := cfg8 0 0 0 0x41 mod 2 ^ 8 in
  let code := Z.land (Z.shiftr l2cc1 2) 3 in
  let s' := exec get_m1541_l2_cache_size s in
  trace s' = trace s ++
    (if l2_cache s =? 0
     then PciRead8 0 0 0 0x42 l2cc2 ::
          (if Z.testbit l2cc2 0 then [PciRead8 0 0 0 0x41 l2cc1] else [])
     else [])
  /\ l2_cache s' =
     (if (l2_cache s =? 0) && Z.testbit l2cc2 0
      then m1541_size code 0 else l2_cache s)
  /\ enable_temperature s' = enable_temperature s
  /\ cpu_temp_offset s' = cpu_temp_offset s
  /\ quirk s' = quirk s.
Proof.
  intros l2cc2 l2cc1 code s'. subst s'.
  assert (Hc := code_range l2cc1). fold code in Hc.
  open_state s. unfold get_m1541_l2_cache_size. run.
  fold l2cc2. rewrite land_1_testbit.
  destruct (Z.eqb_spec l2 0) as [->|Hl2]; cbn [negb andb].
  2:{ rewrite app_nil_r. auto. }
  destruct (Z.testbit l2cc2 0); cbn [negb]; [|auto].
  fold l2cc1. fold code.
  assert (Hcases : code = 0 \/ code = 1 \/ code = 2 \/ code = 3) by lia.
  rewrite <- app_assoc.
  destruct Hcases as [E|[E|[E|E]]]; rewrite E; cbn; auto.
Qed.

(** X9.  [amd_k8_revfg_temp] reads the temperature register once and
    writes to it exactly when bits 16 to 23 of the value read are zero,
    whatever the CPU model; the byte written is the low byte of the value
    read with bit 2 set.  The offset becomes 21.0 exactly when the extended
    model is not 6 and the part is not mobile, the two revision guards
    being what they are in the source. *)
Theorem amd_k8_revfg_temp_sensor_switch s :
  let rtcr := cfg32 0 24 3 AMD_TEMP_REG_K8 mod 2 ^ 32 in
  let v := version (cpuid_info s) in
  let s' := exec amd_k8_revfg_temp s in
  trace s' = trace s ++
    PciRead32 0 24 3 AMD_TEMP_REG_K8 rtcr ::
    (if Z.land (Z.shiftr rtcr 16) 0xFF =? 0
     then [PciWrite8 0 24 3 AMD_TEMP_REG_K8 (sensor_select rtcr)] else [])
  /\ (forall i, Z.testbit (sensor_select rtcr) i =
        (0 <=? i) && (i <? 8) && (Z.testbit rtcr i || (i =? 2)))
  /\ cpu_temp_offset s' =
     (if (extendedModel v =? 6) || mobile v
      then cpu_temp_offset s else 21 # 1)
  /\ l2_cache s' = l2_cache s
  /\ enable_temperature s' = enable_temperature s
  /\ quirk s' = quirk s.
Proof.
  intros rtcr v s'. subst s'.
  split; [|split; [apply sensor_select_bits|split;
                   [apply revfg_offset_by_code|]]].
  - open_state s. unfold amd_k8_revfg_temp, sensor_select.
    rewrite exec_bind, exec_seq. run. fold rtcr.
    destruct (Z.land _ 0xFF =? 0); run;
      repeat match goal with
             | |- context [if ?b then _ else _] => destruct b
             end;
      rewrite <- ?app_assoc; reflexivity.
  - open_state s. unfold amd_k8_revfg_temp.
    rewrite exec_bind, exec_seq.
    destruct (Z.land _ 0xFF =? 0); run;
      repeat match goal with
             | |- context [if ?b then _ else _] => destruct b
             end; auto.
Qed.

(** X10.  Once the control register holds the value [adl_unlock_smbus]
    wrote, a further call reads it and writes nothing; the value written
    is the value read with bit 0 set and fits 16 bits. *)
Theorem adl_unlock_smbus_second_call (hw2 : Bus) (s2 : state) :
  @cfg16 hw2 0 31 4 0x04 = Z.lor (@cfg16 hw 0 31 4 0x04 mod 2 ^ 16) 1 ->
  let x := @cfg16 hw 0 31 4 0x04 mod 2 ^ 16 in
  trace (exec (@adl_unlock_smbus hw2) s2)
  = trace s2 ++ [PciRead16 0 31 4 0x04 (Z.lor x 1)]
  /\ (forall i, Z.testbit (Z.lor x 1) i = Z.testbit x i || (i =? 0))
  /\ 0 <= Z.lor x 1 < 2 ^ 16.
Proof.
  intros Hlatched x. subst x.
  assert (Hfit := lor_1_u16 (@cfg16 hw 0 31 4 0x04)).
  split; [|split; [intros i; apply lor_1_bits|]].
  - rewrite (@adl_unlock_smbus_trace hw2), Hlatched, Hfit, lor_1_bits.
    cbn [Z.eqb]. rewrite orb_true_r. reflexivity.
  - rewrite <- Hfit. apply Z.mod_pos_bound. lia.
Qed.

Lemma mux_channel_byte v :
  0 <= v < 2 ^ 8 ->
  (0 <=? mux_channel v) && (mux_channel v <? 2 ^ 8)
  && (Z.land (mux_channel v) 0x18 =? 0x10)
  && (mux_channel (mux_channel v) =? mux_channel v) = true.
Proof.
  apply (byte_forall (fun v =>
    (0 <=? mux_channel v) && (mux_channel v <? 2 ^ 8)
    && (Z.land (mux_channel v) 0x18 =? 0x10)
    && (mux_channel (mux_channel v) =? mux_channel v))).
  vm_compute. reflexivity.
Qed.

(** X11.  The value [asus_tusl2_configure_mux] writes to register 0xF1
    is a byte with bits [4:3] equal to 10, and configuring it again gives
    the same value. *)
Theorem asus_tusl2_configure_mux_channel s :
  let w := mux_channel (lpc 0xF1 mod 2 ^ 8) in
  In (LpcOutb 0xF1 w) (trace (exec asus_tusl2_configure_mux s))
  /\ 0 <= w < 2 ^ 8
  /\ Z.land w 0x18 = 0x10
  /\ mux_channel w = w.
Proof.
  intros w.
  assert (Hv : 0 <= lpc 0xF1 mod 2 ^ 8 < 2 ^ 8)
    by (apply Z.mod_pos_bound; lia).
  pose proof (mux_channel_byte _ Hv) as Hb. fold w in Hb.
  rewrite !andb_true_iff in Hb. destruct Hb as [[[H0 H1] H2] H3].
  apply Z.leb_le in H0. apply Z.ltb_lt in H1.
  apply Z.eqb_eq in H2. apply Z.eqb_eq in H3.
  split; [|auto].
  open_state s. unfold asus_tusl2_configure_mux. run.
  rewrite !in_app_iff. cbn [In]. fold (mux_channel (lpc 0xF1 mod 2 ^ 8)).
  fold w. tauto.
Qed.

(** X7.  What a corrective action leaves alone: no action changes the
    record, [cpuid_info] or [imc_type], and no action removes an event
    from the trace; [l2_cache] is changed by the L2 probe only,
    [cpu_temp_offset] by the K8 fix-up only, and [enable_temperature] is
    cleared by [disable_temp_reporting], which accesses no hardware, and
    is never set. *)
Theorem corrective_actions_frame a s :
  let s' := exec (call a) s in
  quirk s' = quirk s
  /\ cpuid_info s' = cpuid_info s
  /\ imc_type s' = imc_type s
  /\ (exists evs, trace s' = trace s ++ evs)
  /\ (l2_cache s' = l2_cache s \/ a = get_m1541_l2_cache_size_ptr)
  /\ (cpu_temp_offset s' = cpu_temp_offset s \/ a = amd_k8_revfg_temp_ptr)
  /\ enable_temperature s' =
     match a with
     | disable_temp_reporting_ptr => false
     | _ => enable_temperature s
     end
  /\ trace (exec disable_temp_reporting s) = trace s.
Proof.
  intros s'. subst s'. open_state s.
  destruct a; unfold call.
  - unfold get_m1541_l2_cache_size. run.
    repeat match goal with
           | |- context [if ?b then _ else _] => destruct b
           end;
      repeat split; auto; rewrite <- ?app_assoc;
      try (eexists; reflexivity); exists []; rewrite app_nil_r; reflexivity.
  - unfold asus_tusl2_configure_mux. run.
    repeat split; auto. rewrite <- !app_assoc. eexists; reflexivity.
  - unfold disable_temp_reporting. run.
    repeat split; auto. exists []. rewrite app_nil_r. reflexivity.
  - unfold amd_k8_revfg_temp. rewrite exec_bind, exec_seq.
    destruct (Z.land _ 0xFF =? 0); run;
      repeat match goal with
             | |- context [if ?b then _ else _] => destruct b
             end;
      repeat split; auto; rewrite <- ?app_assoc; eexists; reflexivity.
  - unfold adl_unlock_smbus. run.
    destruct (_ =? 0); run; repeat split; auto;
      rewrite <- ?app_assoc; eexists; reflexivity.
Qed.

End Coverage.

(* ------------------------------------------------------------------ *)
(** * Further examples and theorems at sample machines *)

Example three_rules_match :
  @matching sample_headers three_rules_bus three_rules_state = [R1; R4; R7]
  /\ quirk (exec (@quirks_init sample_headers three_rules_bus)
                 three_rules_state)
     = mk_quirk QUIRK_ADL_SMB_UNLOCK 0xD0 0x10B9 0x1541
         (Some adl_unlock_smbus_ptr).
Proof. vm_compute. split; reflexivity. Qed.

Example quirks_init_trace_k10 :
  trace (exec (@quirks_init sample_headers (sample_bus_of R6))
              (sample_state_of R6))
  = [PciRead16 0 0 0 0x00 0x1022; PciRead16 0 0 0 0x02 0x1100;
     PciRead32 0 24 2 0x94 0].
Proof. vm_compute. reflexivity. Qed.

Example get_m1541_l2_cache_size_disabled :
  let s' := exec (@get_m1541_l2_cache_size unlocked_bus) plain_state in
  trace s' = [PciRead8 0 0 0 0x42 0] /\ l2_cache s' = 0.
Proof. vm_compute. split; reflexivity. Qed.

Lemma quirks_init_keeps_every_domain_witness :
  @matches sample_headers three_rules_bus three_rules_state R1 = true
  /\ let q := quirk (exec (@quirks_init sample_headers three_rules_bus)
                          three_rules_state) in
     id q = QUIRK_ADL_SMB_UNLOCK /\ Z.land (type q) 0x40 = 0x40.
Proof.
  split; [reflexivity|].
  pose proof (@quirks_init_keeps_every_domain sample_headers three_rules_bus
                three_rules_state R1 eq_refl) as H.
  cbv zeta in *. destruct H as [H _].
  split; [vm_compute; reflexivity|exact H].
Defined.

Lemma quirks_init_other_vendor_witness :
  Ascii.eqb (str0 (vendor_id (cpuid_info plain_state))) "A"%char = false
  /\ @matches sample_headers plain_bus plain_state R5 = false.
Proof.
  split; [reflexivity|].
  pose proof (@quirks_init_other_vendor sample_headers plain_bus plain_state
                eq_refl) as H.
  cbv zeta in H. destruct H as (_ & H & _). exact H.
Defined.

Lemma adl_unlock_smbus_second_call_witness :
  @cfg16 unlocked_bus 0 31 4 0x04
  = Z.lor (@cfg16 (sample_bus_of R7) 0 31 4 0x04 mod 2 ^ 16) 1
  /\ trace (exec (@adl_unlock_smbus unlocked_bus) (sample_state_of R7))
     = [PciRead16 0 31 4 0x04 1].
Proof.
  split; [reflexivity|].
  pose proof (@adl_unlock_smbus_second_call (sample_bus_of R7) unlocked_bus
                (sample_state_of R7) eq_refl) as H.
  cbv zeta in H. destruct H as [H _]. exact H.
Defined.
